(** * Snowflake developer kit: SQL statement builders and their guards

    A shallow embedding of the Python sources

      - [src/core/exceptions.py], [src/core/snowflake_utils.py],
        [src/core/models.py], [src/core/response_handlers.py]
      - [src/helpers/dml_manager.py]
      - [src/tools/dml_tools.py] (the delete, update and merge tools)
      - [src/middleware/snowflake_middleware.py] (the security interceptor)

    Conventions of the embedding.

      - A Python [str] is a Rocq [string] holding the UTF-8 bytes of the
        text.  White space ([str.strip]) is that of Python, the characters
        outside the ASCII range included, each recognized by its UTF-8
        bytes.  [str.lower] is used by the sources only to look for ASCII
        phrases in the lowered text: [lower] lowers the ASCII letters and
        the two other characters whose lower case holds an ASCII letter,
        and leaves the remaining bytes as they are.
      - A Python [int] is a [Z].
      - A function that may raise returns an [outcome]; a function that also
        talks to the outside world is a [Py] computation, which threads the
        chronological list of observable events ([trace]).  Events recorded
        before an exception is raised stay in the trace, as in Python.
      - What the repository takes from its environment (the process
        environment, the Snowflake driver, [textwrap.dedent], the text of a
        float, pydantic's field validators) is a field of the class
        [Runtime]. *)

From Stdlib Require Import ZArith Lia DecimalString PrimFloat Ascii String.
From Stdlib Require Import Permutation.
From stdpp Require Import base strings list gmap.

Open Scope string_scope.

(** Concatenation of texts reduces on a known first argument. *)
#[local] Arguments String.append !s1 s2 : simpl nomatch.

(** ** Python strings *)

Definition LF : string := String "010"%char "".
Definition TAB : string := String "009"%char "".

(** U+00A0, the no-break space, and U+3000, the ideographic space. *)
Definition NBSP : string := String "194"%char (String "160"%char "").
Definition IDEOGRAPHIC_SPACE : string :=
  String "227"%char (String "128"%char (String "128"%char "")).

(** [str(n)] for an [int]. *)
Definition str_int (z : Z) : string := NilZero.string_of_int (Z.to_int z).

(** [sep.join(parts)]. *)
Definition join (sep : string) (parts : list string) : string :=
  String.concat sep parts.

(** [s.split(sep)] for a one-character separator: never empty, one more part
    than there are separators. *)
Fixpoint split (sep : ascii) (s : string) : list string :=
  match s with
  | "" => [""]
  | String c rest =>
      if Ascii.eqb c sep then "" :: split sep rest
      else match split sep rest with
           | [] => [String c ""]
           | p :: ps => String c p :: ps
           end
  end.

(** [c.isspace()] on the ASCII range: TAB, LF, VT, FF, CR, FS, GS, RS, US and
    the space. *)
Definition isspace (c : ascii) : bool :=
  let n := nat_of_ascii c in
  ((9 <=? n) && (n <=? 13) || (28 <=? n) && (n <=? 31) || (n =? 32))%nat.

(** The white space of Python outside the ASCII range, by code point:
    U+0085, U+00A0, U+1680, U+2000 to U+200A, U+2028, U+2029, U+202F, U+205F
    and U+3000. *)
Definition space_code_point (n : N) : bool :=
  ((n =? 0x85) || (n =? 0xA0) || (n =? 0x1680) ||
   (0x2000 <=? n) && (n <=? 0x200A) ||
   (n =? 0x2028) || (n =? 0x2029) || (n =? 0x202F) || (n =? 0x205F) ||
   (n =? 0x3000))%N.

(** A continuation byte of UTF-8, and the six bits it carries. *)
Definition continuation (c : ascii) : bool :=
  ((128 <=? N_of_ascii c) && (N_of_ascii c <=? 191))%N.

Definition payload (c : ascii) : N := (N_of_ascii c - 128)%N.

(** The character of two bytes [c1 c2] is white space. *)
Definition isspace2 (c1 c2 : ascii) : bool :=
  ((194 <=? N_of_ascii c1) && (N_of_ascii c1 <=? 223))%N && continuation c2 &&
  space_code_point ((N_of_ascii c1 - 192) * 64 + payload c2).

(** The character of three bytes [c1 c2 c3] is white space. *)
Definition isspace3 (c1 c2 c3 : ascii) : bool :=
  ((224 <=? N_of_ascii c1) && (N_of_ascii c1 <=? 239))%N &&
  continuation c2 && continuation c3 &&
  space_code_point ((N_of_ascii c1 - 224) * 4096 + payload c2 * 64 + payload c3).

(** A text made of white space only (the empty text included): it is read
    character by character, a character being one, two or three bytes. *)
Fixpoint whitespace_only (s : string) : bool :=
  match s with
  | "" => true
  | String c1 r1 =>
      if isspace c1 then whitespace_only r1
      else
        match r1 with
        | "" => false
        | String c2 r2 =>
            if isspace2 c1 c2 then whitespace_only r2
            else
              match r2 with
              | "" => false
              | String c3 r3 => isspace3 c1 c2 c3 && whitespace_only r3
              end
        end
  end.

(** [s.lstrip()]: the white space at the start is dropped, character by
    character. *)
Fixpoint lstrip (s : string) : string :=
  match s with
  | "" => ""
  | String c1 r1 =>
      if isspace c1 then lstrip r1
      else
        match r1 with
        | "" => s
        | String c2 r2 =>
            if isspace2 c1 c2 then lstrip r2
            else
              match r2 with
              | "" => s
              | String c3 r3 => if isspace3 c1 c2 c3 then lstrip r3 else s
              end
        end
  end.

(** [s.rstrip()]: the longest end of the text that is white space only is
    dropped. *)
Fixpoint rstrip (s : string) : string :=
  match s with
  | "" => ""
  | String c rest => if whitespace_only s then "" else String c (rstrip rest)
  end.

(** [s.strip()]. *)
Definition strip (s : string) : string := rstrip (lstrip s).

Definition lower_char (c : ascii) : ascii :=
  let n := nat_of_ascii c in
  if ((65 <=? n) && (n <=? 90))%nat then ascii_of_nat (n + 32) else c.

(** U+0130, the capital I with a dot above, in two bytes; its lower case is
    [i] followed by U+0307, the combining dot. *)
Definition dotted_capital_i (c1 c2 : ascii) : bool :=
  Ascii.eqb c1 "196" && Ascii.eqb c2 "176".

Definition COMBINING_DOT : string := String "204" (String "135" "").

(** U+212A, the Kelvin sign, in three bytes; its lower case is [k]. *)
Definition kelvin_sign (c1 c2 c3 : ascii) : bool :=
  Ascii.eqb c1 "226" && Ascii.eqb c2 "132" && Ascii.eqb c3 "170".

(** [s.lower()], as far as a search for an ASCII phrase can tell: the ASCII
    letters are lowered, and so are the two characters outside the ASCII
    range whose lower case holds an ASCII letter; the other bytes are kept. *)
Fixpoint lower (s : string) : string :=
  match s with
  | "" => ""
  | String c1 r1 =>
      match r1 with
      | "" => String (lower_char c1) ""
      | String c2 r2 =>
          if dotted_capital_i c1 c2 then String "i" (COMBINING_DOT ++ lower r2)
          else
            match r2 with
            | "" => String (lower_char c1) (lower r1)
            | String c3 r3 =>
                if kelvin_sign c1 c2 c3 then String "k" (lower r3)
                else String (lower_char c1) (lower r1)
            end
      end
  end.

(** [needle in hay]. *)
Fixpoint contains (needle hay : string) : bool :=
  String.prefix needle hay ||
  match hay with
  | "" => false
  | String _ rest => contains needle rest
  end.

(** The number of positions of [hay] at which [needle] starts. *)
Fixpoint occurrences (needle hay : string) : nat :=
  (if String.prefix needle hay then 1 else 0) +
  match hay with
  | "" => 0
  | String _ rest => occurrences needle rest
  end.

(** [c in s] for a character. *)
Fixpoint has_char (c : ascii) (s : string) : bool :=
  match s with
  | "" => false
  | String d rest => Ascii.eqb c d || has_char c rest
  end.

(** Truth value of a [str]. *)
Definition nonempty (s : string) : bool := negb (String.eqb s "").

(** ** Python values *)

(** [Union[str, int, float, bool, None]], the type of a column value. *)
Inductive value :=
| VNone
| VInt (n : Z)
| VFloat (f : float)
| VBool (b : bool)
| VStr (s : string).

(** The objects found in a raw result: scalars and lists of scalars. *)
Inductive pyobj :=
| PyVal (v : value)
| PyList (items : list value).

Definition is_None (v : value) : bool :=
  match v with VNone => true | _ => false end.

(** [isinstance(v, (int, float))]: [bool] is a subclass of [int]. *)
Definition isinstance_int_float (v : value) : bool :=
  match v with VInt _ | VFloat _ | VBool _ => true | _ => false end.

(** [isinstance(v, bool)]. *)
Definition isinstance_bool (v : value) : bool :=
  match v with VBool _ => true | _ => false end.

(** [bool(v)]. *)
Definition truthy (v : value) : bool :=
  match v with
  | VNone => false
  | VInt n => negb (n =? 0)%Z
  | VFloat f => negb (PrimFloat.eqb f 0%float)
  | VBool b => b
  | VStr s => nonempty s
  end.

Definition truthy_obj (o : pyobj) : bool :=
  match o with
  | PyVal v => truthy v
  | PyList items => match items with [] => false | _ => true end
  end.

(** ** Exceptions ([src/core/exceptions.py]) *)

Inductive exn :=
| ConnectionException (message : string)
| DMLException (message operation table_name : string)
| MissingArgumentsException (missing : list string)
| ValidationException (message field_name provided_value : string)
| KeyError (key : string)
| ValidationError (model : string) (fields : list string)
| ToolError (message : string).

(** [isinstance(e, SnowflakeException)]. *)
Definition is_SnowflakeException (e : exn) : bool :=
  match e with ConnectionException _ | DMLException _ _ _ => true | _ => false end.

Definition is_DMLException (e : exn) : bool :=
  match e with DMLException _ _ _ => true | _ => false end.

Definition is_ValidationException (e : exn) : bool :=
  match e with ValidationException _ _ _ => true | _ => false end.

(** [e.message] of a [SnowflakeException]. *)
Definition exn_message (e : exn) : string :=
  match e with
  | ConnectionException m | DMLException m _ _ => m
  | _ => ""
  end.

(** [e.tool] of a [SnowflakeException]. *)
Definition exn_tool (e : exn) : string :=
  match e with
  | ConnectionException _ => "Connection Manager"
  | DMLException _ _ _ => "DML Manager"
  | _ => ""
  end.

(** The outcome of a call: a value or a raised exception. *)
Inductive outcome (A : Type) :=
| Return (a : A)
| Raise (e : exn).
Arguments Return {A} a.
Arguments Raise {A} e.

(** ** The outside world *)

Inductive level := Debug | Info | Warning | Error.

Inductive event :=
| EvConnect (account user password : string)
| EvCursor
| EvExecute (sql : string)
| EvFetchall
| EvCtx (lvl : level) (msg : string)
| EvLog (lvl : level) (msg : string).

Definition trace := list event.

(** Events on the warehouse side: opening a connection or using one. *)
Definition is_connection_event (ev : event) : bool :=
  match ev with
  | EvConnect _ _ _ | EvCursor | EvExecute _ | EvFetchall => true
  | _ => false
  end.

(** The warehouse-side events of a trace. *)
Definition connection_events (t : trace) : trace :=
  List.filter is_connection_event t.

(** Statements sent to the warehouse. *)
Definition executed (t : trace) : list string :=
  omap (fun ev => match ev with EvExecute sql => Some sql | _ => None end) t.

Class Runtime := {
  (** [str(f)] for a [float] *)
  str_float : float -> string;
  (** [textwrap.dedent] *)
  dedent : string -> string;
  (** [os.environ] *)
  environ : gmap string string;
  (** whether [import snowflake.connector] succeeded *)
  connector_installed : bool;
  (** [snowflake.connector.connect]: [Some text] when it raises an exception
      whose [str] is [text] *)
  connect_error : string -> string -> string -> option string;
  (** the driver's answer to a statement: the text of the exception it
      raises, or the fetched rows (each as [str(row)]) and [cursor.rowcount] *)
  run_sql : string -> string + (list string * Z);
  (** pydantic's validators for the annotations [bool], [str], [int] and
      [List[str]] *)
  validate_bool : pyobj -> option bool;
  validate_str : pyobj -> option string;
  validate_int : pyobj -> option Z;
  validate_str_list : pyobj -> option (list string);
  (** [str(e)] for a pydantic [ValidationError] *)
  str_validation_error : string -> list string -> string;
  (** the JSON string literal of a text, as [model_dump_json] writes it *)
  json_string : string -> string
}.

(** Effectful computations: state passing over the trace, with exceptions. *)
Definition Py (A : Type) : Type := trace -> outcome A * trace.

Definition ret {A} (a : A) : Py A := fun t => (Return a, t).
Definition raise {A} (e : exn) : Py A := fun t => (Raise e, t).
Definition bind {A B} (m : Py A) (k : A -> Py B) : Py B :=
  fun t => match m t with
           | (Return a, t') => k a t'
           | (Raise e, t') => (Raise e, t')
           end.
Definition emit (ev : event) : Py unit := fun t => (Return tt, (t ++ [ev])%list).
Definition lift {A} (o : outcome A) : Py A := fun t => (o, t).

(** [try: body except Exception as e: handler(e)]. *)
Definition try_except {A} (body : Py A) (handler : exn -> Py A) : Py A :=
  fun t => match body t with
           | (Return a, t') => (Return a, t')
           | (Raise e, t') => handler e t'
           end.

Declare Scope py_scope.
Delimit Scope py_scope with py.
Notation "x <- m ;; k" := (bind m (fun x => k))
  (at level 100, m at next level, right associativity) : py_scope.
Notation "m ;; k" := (bind m (fun _ => k))
  (at level 100, right associativity) : py_scope.
Open Scope py_scope.

(** Exceptions in pure code. *)
Definition obind {A B} (o : outcome A) (k : A -> outcome B) : outcome B :=
  match o with
  | Return a => k a
  | Raise e => Raise e
  end.

(** [d[key]] on a dictionary entry that may be absent. *)
Definition getitem {A} (key : string) (entry : option A) : outcome A :=
  match entry with
  | Some a => Return a
  | None => Raise (KeyError key)
  end.

Section Program.
Context `{Runtime}.

(** [str(v)]. *)
Definition py_str (v : value) : string :=
  match v with
  | VNone => "None"
  | VInt n => str_int n
  | VFloat f => str_float f
  | VBool true => "True"
  | VBool false => "False"
  | VStr s => s
  end.

Definition IND8 : string := "        ".
Definition IND12 : string := "            ".

Definition RULE : string :=
  "-----------------------------------------------------------------------------------".

(** [MissingArgumentsException.__str__]. *)
Definition MissingArguments_str (missing : list string) : string :=
  let missing_str := join (LF ++ TAB ++ TAB) (map (fun i => "--" ++ i) missing) in
  let message :=
    LF ++
    IND8 ++ RULE ++ LF ++
    IND8 ++ "Required arguments missing:" ++ LF ++
    IND8 ++ TAB ++ missing_str ++ LF ++
    IND8 ++ "These values must be specified as command-line arguments or environment variables" ++ LF ++
    IND8 ++ RULE in
  dedent message.

(** [str(e)]: [SnowflakeException.__str__] (no status code is ever given),
    [ValidationException.__str__], [MissingArgumentsException.__str__], and
    the built-in texts. *)
Definition exn_str (e : exn) : string :=
  match e with
  | ConnectionException m | DMLException m _ _ => exn_tool e ++ " Error: " ++ m
  | MissingArgumentsException missing => MissingArguments_str missing
  | ValidationException m field_name _ =>
      if nonempty field_name
      then "Validation Error in '" ++ field_name ++ "': " ++ m
      else "Validation Error: " ++ m
  | KeyError key => "'" ++ key ++ "'"
  | ValidationError model fields => str_validation_error model fields
  | ToolError m => m
  end.

(** ** [src/core/snowflake_utils.py] *)

Record SnowflakeConnection := {
  conn_account : string;
  conn_user : string;
  conn_password : string
}.

(** [os.getenv(name)]. *)
Definition getenv (name : string) : option string := environ !! name.

(** Truth value of an [Optional[str]]. *)
Definition truthy_opt (o : option string) : bool :=
  match o with
  | Some s => nonempty s
  | None => false
  end.

(** [a or b]. *)
Definition py_or (a b : option string) : option string :=
  if truthy_opt a then a else b.

Definition MISSING_ACCOUNT : string := "account_identifier (or SNOWFLAKE_ACCOUNT env var)".
Definition MISSING_USER : string := "username (or SNOWFLAKE_USER env var)".
Definition MISSING_PASSWORD : string := "password (or SNOWFLAKE_PAT/SNOWFLAKE_PASSWORD env var)".

Definition get_snowflake_connection
    (account_identifier username password : option string) : Py SnowflakeConnection :=
  if negb connector_installed then
    raise (ConnectionException "snowflake-connector-python is required but not installed")
  else
    let account_identifier := py_or account_identifier (getenv "SNOWFLAKE_ACCOUNT") in
    let username := py_or username (getenv "SNOWFLAKE_USER") in
    let password :=
      py_or (py_or password (getenv "SNOWFLAKE_PAT")) (getenv "SNOWFLAKE_PASSWORD") in
    let missing :=
      ((if truthy_opt account_identifier then [] else [MISSING_ACCOUNT]) ++
       (if truthy_opt username then [] else [MISSING_USER]) ++
       (if truthy_opt password then [] else [MISSING_PASSWORD]))%list in
    match missing with
    | _ :: _ => raise (MissingArgumentsException missing)
    | [] =>
        let a := default "" account_identifier in
        let u := default "" username in
        let p := default "" password in
        emit (EvConnect a u p) ;;
        match connect_error a u p with
        | Some text =>
            raise (ConnectionException ("Failed to establish Snowflake connection: " ++ text))
        | None => ret {| conn_account := a; conn_user := u; conn_password := p |}
        end
    end.

End Program.

(** ** [src/helpers/dml_manager.py] *)

(** A MERGE action: a dictionary with the keys [action], [columns] and
    [values], any of which may be absent. *)
Record action_dict := {
  act_action : option string;
  act_columns : option (list string);
  act_values : option (list value)
}.

(** The dictionary returned by [execute_dml]; its four keys are always
    present. *)
Record raw_result := {
  success : bool;
  message : string;
  results : list string;
  rows_affected : Z
}.

(** One [for] loop that appends to [dml] the text computed for each action,
    stopping at the first exception. *)
Fixpoint append_each (fragment : action_dict -> outcome string)
    (actions : list action_dict) (dml : string) : outcome string :=
  match actions with
  | [] => Return dml
  | a :: rest => obind (fragment a) (fun f => append_each fragment rest (dml ++ f))
  end.

Module DMLManager.
Section WithRuntime.
Context `{Runtime}.

Record t := { connection : SnowflakeConnection }.

(** [DMLManager.__init__].  Every caller in the repository passes the three
    credentials and no other keyword, so the extra keywords that the source
    hands on to the driver are left out. *)
Definition init (account_identifier username password : option string) : Py t :=
  try_except
    (c <- get_snowflake_connection account_identifier username password ;;
     ret {| connection := c |})
    (fun e =>
       raise (DMLException ("Failed to establish connection: " ++ exn_str e)
                           "CONNECTION" "")).

Definition execute_dml (self : t) (dml : string) : Py raw_result :=
  emit EvCursor ;;
  emit (EvExecute dml) ;;
  match run_sql dml with
  | inl text => raise (DMLException ("Error executing DML: " ++ text) "EXECUTE" dml)
  | inr (rows, rowcount) =>
      emit EvFetchall ;;
      ret {| success := true;
             message := "DML operation executed successfully";
             results := rows;
             rows_affected := rowcount |}
  end.

Definition NOT_QUALIFIED : string :=
  "Table name must be fully qualified as 'database.schema.table'".
Definition LENGTH_MISMATCH : string :=
  "Number of columns does not match number of values".

Definition select_data (self : t) (table_name : string)
    (columns : option (list string)) (where_clause : option string)
    (order_by : option (list string)) (limit offset : option Z) : Py raw_result :=
  let parts := split "." table_name in
  if negb (length parts =? 3)%nat then
    raise (DMLException NOT_QUALIFIED "SELECT" table_name)
  else
    let cols := match columns with
                | Some ((_ :: _) as cs) => join ", " cs
                | _ => "*"
                end in
    let dml := "SELECT " ++ cols ++ " FROM " ++ table_name in
    let dml := match where_clause with
               | Some w => if nonempty w then dml ++ " WHERE " ++ w else dml
               | None => dml
               end in
    let dml := match order_by with
               | Some ((_ :: _) as os) => dml ++ " ORDER BY " ++ join ", " os
               | _ => dml
               end in
    let dml := match limit with
               | Some n => dml ++ " LIMIT " ++ str_int n
               | None => dml
               end in
    let dml := match offset with
               | Some n => dml ++ " OFFSET " ++ str_int n
               | None => dml
               end in
    execute_dml self dml.

(** The body of the loop over [values] in [insert_data] and in the
    WHEN NOT MATCHED branch of [merge_data]. *)
Definition format_value (val : value) : string :=
  if is_None val then "NULL"
  else if isinstance_int_float val then py_str val
  else if isinstance_bool val then (if truthy val then "TRUE" else "FALSE")
  else "'" ++ py_str val ++ "'".

(** The body of the loop over [zip(columns, values)] in [update_data] and in
    the WHEN MATCHED branch of [merge_data]. *)
Definition format_set_clause (col : string) (val : value) : string :=
  if is_None val then col ++ " = NULL"
  else if isinstance_int_float val then col ++ " = " ++ py_str val
  else if isinstance_bool val then col ++ " = " ++ (if truthy val then "TRUE" else "FALSE")
  else col ++ " = '" ++ py_str val ++ "'".

Definition insert_data (self : t) (table_name : string)
    (columns : list string) (values : list value) : Py raw_result :=
  let parts := split "." table_name in
  if negb (length parts =? 3)%nat then
    raise (DMLException NOT_QUALIFIED "INSERT" table_name)
  else if negb (length columns =? length values)%nat then
    raise (DMLException LENGTH_MISMATCH "INSERT" table_name)
  else
    let formatted_values := map format_value values in
    let dml :=
      LF ++
      IND8 ++ "INSERT INTO " ++ table_name ++ " (" ++ join ", " columns ++ ")" ++ LF ++
      IND8 ++ "VALUES (" ++ join ", " formatted_values ++ ")" ++ LF ++
      IND8 in
    execute_dml self dml.

Definition update_data (self : t) (table_name : string)
    (set_columns : list string) (set_values : list value)
    (where_clause : string) : Py raw_result :=
  let parts := split "." table_name in
  if negb (length parts =? 3)%nat then
    raise (DMLException NOT_QUALIFIED "UPDATE" table_name)
  else if negb (length set_columns =? length set_values)%nat then
    raise (DMLException LENGTH_MISMATCH "UPDATE" table_name)
  else
    let set_clauses := zip_with format_set_clause set_columns set_values in
    let dml :=
      LF ++
      IND8 ++ "UPDATE " ++ table_name ++ LF ++
      IND8 ++ "SET " ++ join ", " set_clauses ++ LF ++
      IND8 ++ "WHERE " ++ where_clause ++ LF ++
      IND8 in
    execute_dml self dml.

Definition WHERE_REQUIRED : string :=
  "WHERE clause is required for DELETE operations to prevent accidental data loss".

Definition delete_data (self : t) (table_name where_clause : string) : Py raw_result :=
  let parts := split "." table_name in
  if negb (length parts =? 3)%nat then
    raise (DMLException NOT_QUALIFIED "DELETE" table_name)
  else if negb (nonempty where_clause) || String.eqb (strip where_clause) "" then
    raise (DMLException WHERE_REQUIRED "DELETE" table_name)
  else
    let dml :=
      LF ++
      IND8 ++ "DELETE FROM " ++ table_name ++ LF ++
      IND8 ++ "WHERE " ++ where_clause ++ LF ++
      IND8 in
    execute_dml self dml.

Definition MATCHED_MISMATCH : string :=
  "Number of columns does not match number of values in WHEN MATCHED UPDATE action".
Definition NOT_MATCHED_MISMATCH : string :=
  "Number of columns does not match number of values in WHEN NOT MATCHED INSERT action".

(** What one iteration of the loop over [match_actions] appends to [dml]. *)
Definition matched_fragment (target_table : string) (action : action_dict)
    : outcome string :=
  obind (getitem "action" (act_action action)) (fun action_type =>
  if String.eqb action_type "UPDATE" then
    obind (getitem "columns" (act_columns action)) (fun columns =>
    obind (getitem "values" (act_values action)) (fun values =>
    if negb (length columns =? length values)%nat then
      Raise (DMLException MATCHED_MISMATCH "MERGE" target_table)
    else
      let set_clauses := zip_with format_set_clause columns values in
      Return (LF ++ "WHEN MATCHED THEN UPDATE SET " ++ join ", " set_clauses)))
  else if String.eqb action_type "DELETE" then
    Return (LF ++ "WHEN MATCHED THEN DELETE")
  else Return "").

(** What one iteration of the loop over [not_match_actions] appends. *)
Definition not_matched_fragment (target_table : string) (action : action_dict)
    : outcome string :=
  obind (getitem "action" (act_action action)) (fun action_type =>
  if String.eqb action_type "INSERT" then
    obind (getitem "columns" (act_columns action)) (fun columns =>
    obind (getitem "values" (act_values action)) (fun values =>
    if negb (length columns =? length values)%nat then
      Raise (DMLException NOT_MATCHED_MISMATCH "MERGE" target_table)
    else
      let formatted_values := map format_value values in
      Return (LF ++ "WHEN NOT MATCHED THEN INSERT (" ++ join ", " columns ++
              ") VALUES (" ++ join ", " formatted_values ++ ")")))
  else Return "").

(** The text [dml] starts from in [merge_data]. *)
Definition merge_head (target_table source_table merge_condition : string) : string :=
  LF ++
  IND8 ++ "MERGE INTO " ++ target_table ++ " AS target" ++ LF ++
  IND8 ++ "USING " ++ source_table ++ " AS source" ++ LF ++
  IND8 ++ "ON " ++ merge_condition ++ LF ++
  IND8.

(** The statement assembled by [merge_data], up to the call of
    [execute_dml]. *)
Definition merge_sql (target_table source_table merge_condition : string)
    (match_actions : list action_dict)
    (not_match_actions : option (list action_dict)) : outcome string :=
  let dml := merge_head target_table source_table merge_condition in
  obind (append_each (matched_fragment target_table) match_actions dml) (fun dml =>
  match not_match_actions with
  | Some ((_ :: _) as actions) =>
      append_each (not_matched_fragment target_table) actions dml
  | _ => Return dml
  end).

Definition merge_data (self : t) (target_table source_table merge_condition : string)
    (match_actions : list action_dict)
    (not_match_actions : option (list action_dict)) : Py raw_result :=
  let parts := split "." target_table in
  if negb (length parts =? 3)%nat then
    raise (DMLException
             "Target table name must be fully qualified as 'database.schema.table'"
             "MERGE" target_table)
  else
    dml <- lift (merge_sql target_table source_table merge_condition
                           match_actions not_match_actions) ;;
    execute_dml self dml.

End WithRuntime.
End DMLManager.

(** ** [src/core/models.py] and [src/core/response_handlers.py] *)

(** The dictionary itself, for the callers that unpack it. *)
Definition raw_dict (r : raw_result) : gmap string pyobj :=
  <["success" := PyVal (VBool (success r))]>
  (<["message" := PyVal (VStr (message r))]>
  (<["results" := PyList (map VStr (results r))]>
  (<["rows_affected" := PyVal (VInt (rows_affected r))]> ∅))).

Module DMLResponse.
Section WithRuntime.
Context `{Runtime}.

(** [class DMLResponse(BaseModel)]: four fields, none with a default. *)
Record t := {
  success : bool;
  message : string;
  results : list string;
  rows_affected : Z
}.

(** The validated value of one declared field: absent keys and values the
    field's validator refuses give [None]. *)
Definition field {A} (validate : pyobj -> option A) (name : string)
    (response : gmap string pyobj) : option A :=
  match response !! name with
  | Some o => validate o
  | None => None
  end.

(** The names of the fields that failed, in the order of declaration. *)
Definition failed {A} (name : string) (v : option A) : list string :=
  match v with
  | Some _ => []
  | None => [name]
  end.

(** The construction of a [DMLResponse] from the entries of [response] as
    keyword arguments: keys that are not fields are ignored; all the failing
    fields are reported in one [ValidationError]. *)
Definition new (response : gmap string pyobj) : outcome t :=
  let s := field validate_bool "success" response in
  let m := field validate_str "message" response in
  let r := field validate_str_list "results" response in
  let n := field validate_int "rows_affected" response in
  match s, m, r, n with
  | Some s, Some m, Some r, Some n =>
      Return {| success := s; message := m; results := r; rows_affected := n |}
  | _, _, _, _ =>
      Raise (ValidationError "DMLResponse"
               (failed "success" s ++ failed "message" m ++
                failed "results" r ++ failed "rows_affected" n)%list)
  end.

Definition DQ : string := String "034"%char "".

(** [model_dump_json()]: the fields in the order of declaration, no
    white space. *)
Definition model_dump_json (self : t) : string :=
  "{" ++ DQ ++ "success" ++ DQ ++ ":" ++ (if success self then "true" else "false") ++
  "," ++ DQ ++ "message" ++ DQ ++ ":" ++ json_string (message self) ++
  "," ++ DQ ++ "results" ++ DQ ++ ":[" ++ join "," (map json_string (results self)) ++ "]" ++
  "," ++ DQ ++ "rows_affected" ++ DQ ++ ":" ++ str_int (rows_affected self) ++
  "}".

End WithRuntime.
End DMLResponse.

Module DDLResponse.
Section WithRuntime.
Context `{Runtime}.

(** [class DDLResponse(BaseModel)]: three fields, none with a default. *)
Record t := {
  success : bool;
  message : string;
  results : list string
}.

(** The construction of a [DDLResponse] from the entries of [response] as
    keyword arguments. *)
Definition new (response : gmap string pyobj) : outcome t :=
  let s := DMLResponse.field validate_bool "success" response in
  let m := DMLResponse.field validate_str "message" response in
  let r := DMLResponse.field validate_str_list "results" response in
  match s, m, r with
  | Some s, Some m, Some r =>
      Return {| success := s; message := m; results := r |}
  | _, _, _ =>
      Raise (ValidationError "DDLResponse"
               (DMLResponse.failed "success" s ++ DMLResponse.failed "message" m ++
                DMLResponse.failed "results" r)%list)
  end.

Definition model_dump_json (self : t) : string :=
  "{" ++ DMLResponse.DQ ++ "success" ++ DMLResponse.DQ ++ ":" ++
  (if success self then "true" else "false") ++
  "," ++ DMLResponse.DQ ++ "message" ++ DMLResponse.DQ ++ ":" ++
  json_string (message self) ++
  "," ++ DMLResponse.DQ ++ "results" ++ DMLResponse.DQ ++ ":[" ++
  join "," (map json_string (results self)) ++ "]" ++
  "}".

End WithRuntime.
End DDLResponse.

Module SnowflakeResponse.
Section WithRuntime.
Context `{Runtime}.

Definition parse_dml_response (response : gmap string pyobj) : outcome string :=
  obind (DMLResponse.new response) (fun ret => Return (DMLResponse.model_dump_json ret)).

Definition parse_ddl_response (response : gmap string pyobj) : outcome string :=
  obind (DDLResponse.new response) (fun ret => Return (DDLResponse.model_dump_json ret)).

End WithRuntime.
End SnowflakeResponse.

(** ** [src/tools/dml_tools.py] *)

Module DMLTools.
Section WithRuntime.
Context `{Runtime}.

Definition MISSING_CREDENTIALS : string :=
  "Missing required Snowflake credentials: SNOWFLAKE_ACCOUNT, SNOWFLAKE_USER, and SNOWFLAKE_PAT/SNOWFLAKE_PASSWORD".

Definition get_snowflake_credentials : outcome (string * string * string) :=
  let account_identifier := getenv "SNOWFLAKE_ACCOUNT" in
  let username := getenv "SNOWFLAKE_USER" in
  let pat := py_or (getenv "SNOWFLAKE_PAT") (getenv "SNOWFLAKE_PASSWORD") in
  if negb (truthy_opt account_identifier) || negb (truthy_opt username)
     || negb (truthy_opt pat) then
    Raise (ValidationException MISSING_CREDENTIALS "credentials" "environment")
  else
    Return (default "" account_identifier, default "" username, default "" pat).

(** [DMLManager(account_identifier=..., username=..., password=...)] on the
    credentials of the environment. *)
Definition new_manager : Py DMLManager.t :=
  creds <- lift get_snowflake_credentials ;;
  let '(account_identifier, username, pat) := creds in
  DMLManager.init (Some account_identifier) (Some username) (Some pat).

(** [if cond: raise e]. *)
Definition raise_if (cond : bool) (e : exn) : Py unit :=
  if cond then raise e else ret tt.

(** The tool [update_data]. *)
Definition update_data (table_name set_clause where_clause : string) : Py string :=
  try_except
    (emit (EvCtx Info ("Updating data in table: " ++ table_name)) ;;
     emit (EvCtx Info ("SET: " ++ set_clause)) ;;
     emit (EvCtx Info ("WHERE: " ++ where_clause)) ;;
     dml_manager <- new_manager ;;
     let update_sql :=
       "UPDATE " ++ table_name ++ " SET " ++ set_clause ++ " WHERE " ++ where_clause in
     dml_response <- DMLManager.execute_dml dml_manager update_sql ;;
     raise_if (negb (success dml_response))
              (DMLException (message dml_response) "UPDATE" table_name) ;;
     let rows_affected := rows_affected dml_response in
     emit (EvCtx Info ("Data updated successfully in " ++ table_name)) ;;
     ret ("Data updated successfully in '" ++ table_name ++ "'!" ++ LF ++
          LF ++
          IND12 ++ "🔄 SET clause: " ++ set_clause ++ LF ++
          IND12 ++ "🎯 WHERE clause: " ++ where_clause ++ LF ++
          IND12 ++ "📝 Rows affected: " ++ str_int rows_affected ++ LF ++
          IND12 ++ "✅ Operation completed successfully"))
    (fun e =>
       if is_SnowflakeException e then
         emit (EvCtx Error ("Data update failed: " ++ exn_message e)) ;;
         raise (ToolError ("Data update failed: " ++ exn_message e))
       else
         emit (EvCtx Error ("Unexpected error: " ++ exn_str e)) ;;
         raise (ToolError ("Unexpected error: " ++ exn_str e))).

(** The tool [delete_data]. *)
Definition delete_data (table_name where_clause : string) : Py string :=
  try_except
    (emit (EvCtx Info ("Deleting data from table: " ++ table_name)) ;;
     emit (EvCtx Warning ("WHERE clause: " ++ where_clause)) ;;
     emit (EvCtx Warning "This operation will permanently delete data!") ;;
     raise_if (negb (nonempty where_clause) || String.eqb (strip where_clause) "")
              (ValidationException DMLManager.WHERE_REQUIRED "where_clause" where_clause) ;;
     dml_manager <- new_manager ;;
     dml_response <- DMLManager.delete_data dml_manager table_name where_clause ;;
     raise_if (negb (success dml_response))
              (DMLException (message dml_response) "DELETE" table_name) ;;
     let rows_affected := rows_affected dml_response in
     emit (EvCtx Info ("Data deleted successfully from " ++ table_name)) ;;
     ret ("Data deleted successfully from '" ++ table_name ++ "'!" ++ LF ++
          LF ++
          IND12 ++ "🎯 WHERE clause: " ++ where_clause ++ LF ++
          IND12 ++ "📝 Rows affected: " ++ str_int rows_affected ++ LF ++
          IND12 ++ "⚠️ This operation cannot be undone" ++ LF ++
          IND12 ++ "✅ Operation completed successfully"))
    (fun e =>
       if is_SnowflakeException e then
         emit (EvCtx Error ("Data deletion failed: " ++ exn_message e)) ;;
         raise (ToolError ("Data deletion failed: " ++ exn_message e))
       else
         emit (EvCtx Error ("Unexpected error: " ++ exn_str e)) ;;
         raise (ToolError ("Unexpected error: " ++ exn_str e))).

(** [f"  • WHEN MATCHED: {action['action']}"] for each action. *)
Fixpoint summary (prefix : string) (actions : list action_dict) : outcome (list string) :=
  match actions with
  | [] => Return []
  | action :: rest =>
      obind (getitem "action" (act_action action)) (fun tag =>
      obind (summary prefix rest) (fun lines =>
      Return ((prefix ++ tag) :: lines)))
  end.

(** The tool [merge_data].  The text returned by [parse_dml_response] is
    only parsed back with [json.loads] and not used further. *)
Definition merge_data (target_table source_table merge_condition : string)
    (match_actions : list action_dict)
    (not_match_actions : option (list action_dict)) : Py string :=
  try_except
    (emit (EvCtx Info ("Performing MERGE operation on target table: " ++ target_table)) ;;
     emit (EvCtx Info ("Source: " ++ source_table)) ;;
     emit (EvCtx Info ("Merge condition: " ++ merge_condition)) ;;
     raise_if (negb (nonempty target_table) || negb (nonempty (strip target_table)))
              (ValidationException "Target table name cannot be empty"
                                   "target_table" target_table) ;;
     raise_if (negb (nonempty source_table) || negb (nonempty (strip source_table)))
              (ValidationException "Source table name cannot be empty"
                                   "source_table" source_table) ;;
     raise_if (negb (nonempty merge_condition) || negb (nonempty (strip merge_condition)))
              (ValidationException "Merge condition cannot be empty"
                                   "merge_condition" merge_condition) ;;
     raise_if (match match_actions with [] => true | _ => false end
               || (length match_actions =? 0)%nat)
              (ValidationException "At least one match action is required"
                                   "match_actions" "[]") ;;
     dml_manager <- new_manager ;;
     dml_response <- DMLManager.merge_data dml_manager target_table source_table
                       merge_condition match_actions not_match_actions ;;
     raise_if (negb (success dml_response))
              (DMLException (message dml_response) "MERGE" target_table) ;;
     parsed_response <- lift (SnowflakeResponse.parse_dml_response (raw_dict dml_response)) ;;
     let rows_affected := rows_affected dml_response in
     match_summary <- lift (summary "  • WHEN MATCHED: " match_actions) ;;
     not_match_summary <-
       lift (match not_match_actions with
             | Some ((_ :: _) as actions) => summary "  • WHEN NOT MATCHED: " actions
             | _ => Return []
             end) ;;
     emit (EvCtx Info ("MERGE operation completed successfully on " ++ target_table)) ;;
     ret ("MERGE operation completed successfully!" ++ LF ++
          LF ++
          IND12 ++ "🎯 Target table: " ++ target_table ++ LF ++
          IND12 ++ "📥 Source: " ++ source_table ++ LF ++
          IND12 ++ "🔗 Merge condition: " ++ merge_condition ++ LF ++
          IND12 ++ LF ++
          IND12 ++ "📋 Match actions:" ++ LF ++
          IND12 ++ join LF match_summary ++ LF ++
          IND12 ++ LF ++
          IND12 ++ match not_match_actions with
                   | Some (_ :: _) =>
                       "📋 Not match actions:" ++ LF ++
                       IND12 ++ join LF not_match_summary
                   | _ => "📋 No not-match actions specified"
                   end ++ LF ++
          IND12 ++ LF ++
          IND12 ++ "📝 Rows affected: " ++ str_int rows_affected ++ LF ++
          IND12 ++ "✅ Operation completed successfully"))
    (fun e =>
       if is_ValidationException e then
         emit (EvCtx Error ("Validation error: " ++ exn_str e)) ;;
         raise (ToolError ("Validation error: " ++ exn_str e))
       else if is_DMLException e then
         emit (EvCtx Error ("MERGE operation failed: " ++ exn_message e)) ;;
         raise (ToolError ("MERGE operation failed: " ++ exn_message e))
       else if is_SnowflakeException e then
         let dml_error := "MERGE operation failed: " ++ exn_message e in
         emit (EvCtx Error ("MERGE failed: " ++ dml_error)) ;;
         raise (ToolError ("MERGE failed: " ++ dml_error))
       else
         let dml_error := "Unexpected error during MERGE: " ++ exn_str e in
         emit (EvCtx Error ("Unexpected MERGE error: " ++ dml_error)) ;;
         raise (ToolError ("Unexpected MERGE error: " ++ dml_error))).


(** What [json.dumps] makes of the lists and dictionaries found among the
    values to insert, and of a text. *)
Variable container : Type.
Variable json_dumps : container -> string.
Variable json_dumps_text : string -> string.

(** The loop that replaces each list or dictionary by its JSON text. *)
Definition dump_containers (values : list (value + container)) : list value :=
  map (fun v => match v with
                | inl scalar => scalar
                | inr c => VStr (json_dumps c)
                end) values.

(** The tool [insert_data]; [data] holds the items of the dictionary in its
    order.  The fields read from [json.loads(parsed_response)] are those of
    the validated model. *)
Definition insert_data (table_name : string)
    (data : list (string * (value + container))) : Py string :=
  try_except
    (emit (EvCtx Info ("Inserting data into table: " ++ table_name)) ;;
     raise_if (negb (nonempty table_name) || negb (nonempty (strip table_name)))
              (ValidationException "Table name cannot be empty" "table_name" table_name) ;;
     raise_if (match data with [] => true | _ => false end)
              (ValidationException "Data must be a non-empty dictionary" "data" "{}") ;;
     let columns := map fst data in
     let values := dump_containers (map snd data) in
     dml_manager <- new_manager ;;
     dml_response <- DMLManager.insert_data dml_manager table_name columns values ;;
     raise_if (negb (success dml_response))
              (DMLException (message dml_response) "INSERT" table_name) ;;
     parsed_response <- lift (SnowflakeResponse.parse_dml_response (raw_dict dml_response)) ;;
     response_data <- lift (DMLResponse.new (raw_dict dml_response)) ;;
     emit (EvCtx Info ("Data inserted successfully into " ++ table_name)) ;;
     ret ("Data inserted successfully into '" ++ table_name ++ "'!" ++ LF ++
          LF ++
          IND12 ++ "📊 Columns: " ++ join ", " columns ++ LF ++
          IND12 ++ "📝 Rows affected: " ++
            str_int (DMLResponse.rows_affected response_data) ++ LF ++
          IND12 ++ "✅ Operation completed successfully"))
    (fun e =>
       if is_ValidationException e then
         emit (EvCtx Error ("Validation error: " ++ exn_str e)) ;;
         raise (ToolError ("Validation error: " ++ exn_str e))
       else if is_DMLException e then
         emit (EvCtx Error ("DML operation failed: " ++ exn_message e)) ;;
         raise (ToolError ("DML operation failed: " ++ exn_message e))
       else if is_SnowflakeException e then
         let dml_error := "Insert operation failed: " ++ exn_message e in
         emit (EvCtx Error ("Insert failed: " ++ dml_error)) ;;
         raise (ToolError ("Insert failed: " ++ dml_error))
       else
         let dml_error := "Unexpected error during insert: " ++ exn_str e in
         emit (EvCtx Error ("Unexpected insert error: " ++ dml_error)) ;;
         raise (ToolError ("Unexpected insert error: " ++ dml_error))).

Definition IND16 : string := "                ".

(** [f"Row {i}: {json.dumps(row, indent=2, default=str)}"] for the rows
    numbered from [i] on, each row being the dictionary with the single key
    [data]. *)
Fixpoint results_text (i : nat) (rows : list string) : list string :=
  match rows with
  | [] => []
  | row :: rest =>
      ("Row " ++ str_int (Z.of_nat i) ++ ": " ++
       "{" ++ LF ++ "  " ++ DMLResponse.DQ ++ "data" ++ DMLResponse.DQ ++ ": " ++
       json_dumps_text row ++ LF ++ "}")
      :: results_text (S i) rest
  end.

(** The tool [query_data]. *)
Definition query_data (table_name : string) (columns : option (list string))
    (where_clause : option string) (limit : option Z) : Py string :=
  try_except
    (emit (EvCtx Info ("Querying data from table: " ++ table_name)) ;;
     dml_manager <- new_manager ;;
     dml_response <- DMLManager.select_data dml_manager table_name columns
                       where_clause None limit None ;;
     raise_if (negb (success dml_response))
              (DMLException (message dml_response) "SELECT" table_name) ;;
     let formatted_results := results dml_response in
     parsed_response <- lift (SnowflakeResponse.parse_dml_response (raw_dict dml_response)) ;;
     emit (EvCtx Info ("Data retrieved successfully from " ++ table_name)) ;;
     match formatted_results with
     | _ :: _ =>
         let results_display := join (LF ++ LF) (results_text 1 formatted_results) in
         ret ("Data retrieved from '" ++ table_name ++ "':" ++ LF ++
              LF ++
              IND16 ++ "📊 Total rows: " ++
                str_int (Z.of_nat (length formatted_results)) ++ LF ++
              IND16 ++ "📋 Columns: " ++
                match columns with
                | Some ((_ :: _) as cs) => join ", " cs
                | _ => "All columns"
                end ++ LF ++
              IND16 ++ "🔍 Filter: " ++
                match where_clause with
                | Some w => if nonempty w then w else "No filter"
                | None => "No filter"
                end ++ LF ++
              IND16 ++ "📄 Limit: " ++
                match limit with
                | Some n => if (n =? 0)%Z then "No limit" else str_int n
                | None => "No limit"
                end ++ LF ++
              LF ++
              IND16 ++ "📈 Results:" ++ LF ++
              IND16 ++ results_display)
     | [] =>
         ret ("No data found in '" ++ table_name ++ "' matching the specified criteria.")
     end)
    (fun e =>
       if is_SnowflakeException e then
         emit (EvCtx Error ("Data query failed: " ++ exn_message e)) ;;
         raise (ToolError ("Data query failed: " ++ exn_message e))
       else
         emit (EvCtx Error ("Unexpected error: " ++ exn_str e)) ;;
         raise (ToolError ("Unexpected error: " ++ exn_str e))).

(** The tool [execute_dml_statement]. *)
Definition execute_dml_statement (dml_statement : string) : Py string :=
  try_except
    (raise_if (negb (nonempty dml_statement) || negb (nonempty (strip dml_statement)))
              (ValidationException "DML statement cannot be empty"
                                   "dml_statement" dml_statement) ;;
     emit (EvCtx Info ("Executing DML statement: " ++ dml_statement)) ;;
     dml_manager <- new_manager ;;
     dml_response <- DMLManager.execute_dml dml_manager dml_statement ;;
     raise_if (negb (success dml_response))
              (DMLException (message dml_response) "EXECUTE" dml_statement) ;;
     parsed_response <- lift (SnowflakeResponse.parse_dml_response (raw_dict dml_response)) ;;
     response_data <- lift (DMLResponse.new (raw_dict dml_response)) ;;
     emit (EvCtx Info "DML statement executed successfully") ;;
     ret ("DML statement executed successfully!" ++ LF ++
          LF ++
          IND12 ++ "📝 Statement: " ++ dml_statement ++ LF ++
          IND12 ++ "✅ Operation completed successfully" ++ LF ++
          IND12 ++ "📊 Rows affected: " ++
            str_int (DMLResponse.rows_affected response_data) ++ LF ++
          IND12 ++ "📈 Results: " ++
            str_int (Z.of_nat (length (DMLResponse.results response_data))) ++
            " rows returned"))
    (fun e =>
       if is_ValidationException e then
         emit (EvCtx Error ("Validation error: " ++ exn_str e)) ;;
         raise (ToolError ("Validation error: " ++ exn_str e))
       else if is_DMLException e then
         emit (EvCtx Error ("DML operation failed: " ++ exn_message e)) ;;
         raise (ToolError ("DML operation failed: " ++ exn_message e))
       else if is_SnowflakeException e then
         let dml_error := "DML execution failed: " ++ exn_message e in
         emit (EvCtx Error ("DML execution failed: " ++ dml_error)) ;;
         raise (ToolError ("DML execution failed: " ++ dml_error))
       else
         let dml_error := "Unexpected error during DML execution: " ++ exn_str e in
         emit (EvCtx Error ("Unexpected DML error: " ++ dml_error)) ;;
         raise (ToolError ("Unexpected DML error: " ++ dml_error))).

End WithRuntime.
End DMLTools.

(** ** [src/middleware/snowflake_middleware.py] *)

(** What the interceptors read of a [MiddlewareContext]: the attribute
    [tool_name] if there is one, and the attribute [arguments] if there is
    one, which may be [None]. *)
Record MiddlewareContext := {
  tool_name : option string;
  arguments : option (option (gmap string value))
}.

Module SnowflakeSecurityMiddleware.
Section WithRuntime.
Context `{Runtime}.

(** The members of the set [DANGEROUS_KEYWORDS]. *)
Definition DANGEROUS_KEYWORDS : list string :=
  ["drop database"; "drop warehouse"; "truncate"; "delete from";
   "alter user"; "create user"; "drop user"; "grant"; "revoke"].

Definition sql_fields : list string :=
  ["ddl_statement"; "sql_statement"; "query"; "statement"].

(** The loop over the keywords, in the order [keywords] in which the set is
    iterated: a warning for the first keyword found, then [break]. *)
Fixpoint scan (tool_name sql : string) (keywords : list string) : Py unit :=
  match keywords with
  | [] => ret tt
  | keyword :: rest =>
      if contains keyword sql then
        emit (EvLog Warning
                ("Potentially dangerous SQL operation detected in tool '" ++
                 tool_name ++ "': " ++ keyword))
      else scan tool_name sql rest
  end.

(** The loop over [sql_fields]. *)
Fixpoint scan_fields (keywords : list string) (tool_name : string)
    (args : gmap string value) (fields : list string) : Py unit :=
  match fields with
  | [] => ret tt
  | field :: rest =>
      match args !! field with
      | Some v =>
          if truthy v then scan tool_name (lower (py_str v)) keywords else ret tt
      | None => ret tt
      end ;;
      scan_fields keywords tool_name args rest
  end.

(** [on_call_tool]; [keywords] is the iteration order of the set
    [DANGEROUS_KEYWORDS] in the running process. *)
Definition on_call_tool {R} (keywords : list string) (context : MiddlewareContext)
    (call_next : MiddlewareContext -> Py R) : Py R :=
  let tool_name := default "unknown" (tool_name context) in
  match arguments context with
  | Some arguments =>
      let args := default ∅ arguments in
      scan_fields keywords tool_name args sql_fields
  | None => ret tt
  end ;;
  call_next context.

End WithRuntime.
End SnowflakeSecurityMiddleware.

(** The clock of the process: what [time.time()] and
    [time.strftime('%Y-%m-%d %H:%M:%S')] answer at the moment when the
    events of the trace have happened, and the text of a float under the
    format [.2f]. *)
Class Clock := {
  time_time : trace -> float;
  time_strftime : trace -> string;
  format_2f : float -> string
}.

Module SnowflakeValidationMiddleware.
Section WithRuntime.
Context `{Runtime}.

Definition on_call_tool {R} (context : MiddlewareContext)
    (call_next : MiddlewareContext -> Py R) : Py R :=
  let tool_name := default "unknown" (tool_name context) in
  emit (EvLog Debug ("Validating tool: " ++ tool_name)) ;;
  call_next context.

End WithRuntime.
End SnowflakeValidationMiddleware.

Module SnowflakeLoggingMiddleware.
Section WithRuntime.
Context `{Runtime} `{Clock}.

(** [logger.info] and [logger.error] with a message that starts with the
    time of the moment. *)
Definition log_at (lvl : level) (msg : string) : Py unit :=
  fun t => (Return tt, (t ++ [EvLog lvl ("[" ++ time_strftime t ++ "] " ++ msg)])%list).

Definition on_call_tool {R} (context : MiddlewareContext)
    (call_next : MiddlewareContext -> Py R) : Py R :=
  fun t0 =>
    let start_time := time_time t0 in
    let tool_name := default "unknown" (tool_name context) in
    (log_at Info ("Snowflake tool '" ++ tool_name ++ "' started") ;;
     try_except
       (result <- call_next context ;;
        (fun t =>
           let execution_time := PrimFloat.sub (time_time t) start_time in
           log_at Info ("Snowflake tool '" ++ tool_name ++
                        "' completed successfully in " ++
                        format_2f execution_time ++ "s") t) ;;
        ret result)
       (fun e =>
          (fun t =>
             let execution_time := PrimFloat.sub (time_time t) start_time in
             log_at Error ("Snowflake tool '" ++ tool_name ++ "' failed after " ++
                           format_2f execution_time ++ "s: " ++ exn_str e) t) ;;
          raise e)) t0.

End WithRuntime.
End SnowflakeLoggingMiddleware.

Module SnowflakeConnectionMiddleware.

Definition on_call_tool {R} (context : MiddlewareContext)
    (call_next : MiddlewareContext -> Py R) : Py R :=
  call_next context.

End SnowflakeConnectionMiddleware.

Section Registration.
Context `{Runtime} `{Clock}.

(** [register_middleware]: the four interceptors in their order of
    registration, the first registered being the outermost layer around the
    tool, as the docstring of the function has it. *)
Definition registered_chain {R} (keywords : list string) (context : MiddlewareContext)
    (tool : MiddlewareContext -> Py R) : Py R :=
  SnowflakeValidationMiddleware.on_call_tool context (fun context =>
  SnowflakeSecurityMiddleware.on_call_tool keywords context (fun context =>
  SnowflakeLoggingMiddleware.on_call_tool context (fun context =>
  SnowflakeConnectionMiddleware.on_call_tool context tool))).

End Registration.

(** ** The statement of the specification for [select] *)

(** Follows the words of the specification: [SELECT <cols|*> FROM <table>]
    and then the optional [WHERE], [ORDER BY], [LIMIT] and [OFFSET], in that
    order, each only if supplied.  A text or a list counts as supplied when
    it is not empty, a number whenever it is given. *)
Definition select_statement (table_name : string)
    (columns : option (list string)) (where_clause : option string)
    (order_by : option (list string)) (limit offset : option Z) : string :=
  "SELECT " ++
  match columns with Some ((_ :: _) as cs) => join ", " cs | _ => "*" end ++
  " FROM " ++ table_name ++
  match where_clause with
  | Some w => if nonempty w then " WHERE " ++ w else ""
  | None => ""
  end ++
  match order_by with Some ((_ :: _) as os) => " ORDER BY " ++ join ", " os | _ => "" end ++
  match limit with Some n => " LIMIT " ++ str_int n | None => "" end ++
  match offset with Some n => " OFFSET " ++ str_int n | None => "" end.

(** ** The precedence of the specification for credentials *)

(** Follows the words of the specification: the sources of a credential are
    tried in their order of precedence, and the first one that gives a
    non-empty text wins. *)
Fixpoint first_given (sources : list (option string)) : option string :=
  match sources with
  | [] => None
  | source :: rest => if truthy_opt source then source else first_given rest
  end.

(** ** Observations of the security interceptor *)

(** A warning of the logger. *)
Definition is_warning (ev : event) : bool :=
  match ev with
  | EvLog Warning _ => true
  | _ => false
  end.

(** ** The merge actions of the data model *)

(** Every action carries its tag, and an UPDATE or INSERT action carries its
    columns and its values. *)
Definition complete (a : action_dict) : bool :=
  match act_action a with
  | None => false
  | Some tag =>
      if String.eqb tag "UPDATE" || String.eqb tag "INSERT"
      then match act_columns a, act_values a with
           | Some _, Some _ => true
           | _, _ => false
           end
      else true
  end.

(** An action tagged [tag] whose column list and value list differ in
    length. *)
Definition mismatched (tag : string) (a : action_dict) : bool :=
  match act_action a, act_columns a, act_values a with
  | Some tg, Some columns, Some values =>
      String.eqb tg tag && negb (length columns =? length values)%nat
  | _, _, _ => false
  end.

(** ** The operations as families *)

(** The number of occurrences of a character. *)
Fixpoint count_char (c : ascii) (s : string) : nat :=
  match s with
  | "" => 0
  | String d rest => (if Ascii.eqb d c then 1 else 0) + count_char c rest
  end.

(** A call of one of the five operations of the builder. *)
Inductive request :=
| Select (table_name : string) (columns : option (list string))
    (where_clause : option string) (order_by : option (list string))
    (limit offset : option Z)
| Insert (table_name : string) (columns : list string) (values : list value)
| Update (table_name : string) (set_columns : list string) (set_values : list value)
    (where_clause : string)
| Delete (table_name where_clause : string)
| Merge (target_table source_table merge_condition : string)
    (match_actions : list action_dict) (not_match_actions : option (list action_dict)).

(** The table a request is about. *)
Definition request_table (r : request) : string :=
  match r with
  | Select table_name _ _ _ _ _ | Insert table_name _ _ | Update table_name _ _ _
  | Delete table_name _ | Merge table_name _ _ _ _ => table_name
  end.

Section Families.
Context `{Runtime}.

Definition perform (self : DMLManager.t) (r : request) : Py raw_result :=
  match r with
  | Select table_name columns where_clause order_by limit offset =>
      DMLManager.select_data self table_name columns where_clause order_by limit offset
  | Insert table_name columns values =>
      DMLManager.insert_data self table_name columns values
  | Update table_name set_columns set_values where_clause =>
      DMLManager.update_data self table_name set_columns set_values where_clause
  | Delete table_name where_clause =>
      DMLManager.delete_data self table_name where_clause
  | Merge target_table source_table merge_condition match_actions not_match_actions =>
      DMLManager.merge_data self target_table source_table merge_condition
        match_actions not_match_actions
  end.

Variable container : Type.
Variable json_dumps : container -> string.
Variable json_dumps_text : string -> string.

(** An invocation of one of the six DML tools. *)
Inductive invocation :=
| InsertData (table_name : string) (data : list (string * (value + container)))
| QueryData (table_name : string) (columns : option (list string))
    (where_clause : option string) (limit : option Z)
| UpdateData (table_name set_clause where_clause : string)
| DeleteData (table_name where_clause : string)
| ExecuteDmlStatement (dml_statement : string)
| MergeData (target_table source_table merge_condition : string)
    (match_actions : list action_dict) (not_match_actions : option (list action_dict)).

Definition invoke (i : invocation) : Py string :=
  match i with
  | InsertData table_name data => DMLTools.insert_data container json_dumps table_name data
  | QueryData table_name columns where_clause limit =>
      DMLTools.query_data json_dumps_text table_name columns where_clause limit
  | UpdateData table_name set_clause where_clause =>
      DMLTools.update_data table_name set_clause where_clause
  | DeleteData table_name where_clause => DMLTools.delete_data table_name where_clause
  | ExecuteDmlStatement dml_statement => DMLTools.execute_dml_statement dml_statement
  | MergeData target_table source_table merge_condition match_actions not_match_actions =>
      DMLTools.merge_data target_table source_table merge_condition
        match_actions not_match_actions
  end.

End Families.

(** The tags the two loops of [merge_data] act on. *)
Definition matched_tag (a : action_dict) : bool :=
  match act_action a with
  | Some tag => String.eqb tag "UPDATE" || String.eqb tag "DELETE"
  | None => true
  end.

Definition not_matched_tag (a : action_dict) : bool :=
  match act_action a with
  | Some tag => String.eqb tag "INSERT"
  | None => true
  end.

(** The log events. *)
Definition is_log (ev : event) : bool :=
  match ev with
  | EvLog _ _ => true
  | _ => false
  end.

(** ** Sessions of a tool *)

(** A tool failed, as tools do: with a [ToolError]. *)
Definition tool_failed {A} (o : outcome A) : Prop :=
  exists msg, o = Raise (ToolError msg).

(** What an invocation did on the side of the warehouse, [l] being the
    events it added, and how it ended: nothing and a failure; a connection
    and a failure; a connection, one statement that the driver refused, and
    a failure; or a connection and one statement sent and fetched. *)
Inductive session {A} (o : outcome A) (l : trace) : Prop :=
| NotConnected :
    connection_events l = [] -> tool_failed o -> session o l
| Connected (a u p : string) :
    connection_events l = [EvConnect a u p] -> tool_failed o -> session o l
| Refused (a u p sql : string) :
    connection_events l = [EvConnect a u p; EvCursor; EvExecute sql] ->
    tool_failed o -> session o l
| Fetched (a u p sql : string) :
    connection_events l = [EvConnect a u p; EvCursor; EvExecute sql; EvFetchall] ->
    (exists text, o = Return text) \/ tool_failed o -> session o l.

(** ** Stand-ins for the environment, for closed examples *)

Definition strict_bool (o : pyobj) : option bool :=
  match o with PyVal (VBool b) => Some b | _ => None end.
Definition strict_str (o : pyobj) : option string :=
  match o with PyVal (VStr s) => Some s | _ => None end.
Definition strict_int (o : pyobj) : option Z :=
  match o with PyVal (VInt n) => Some n | _ => None end.
Definition strict_str_list (o : pyobj) : option (list string) :=
  match o with
  | PyList items => mapM (fun v => match v with VStr s => Some s | _ => None end) items
  | _ => None
  end.

(** A process with no credentials in its environment. *)
Definition bare_runtime : Runtime := {|
  str_float := fun _ => "0.0";
  dedent := fun s => s;
  environ := ∅;
  connector_installed := true;
  connect_error := fun _ _ _ => None;
  run_sql := fun _ => inr ([], 1%Z);
  validate_bool := strict_bool;
  validate_str := strict_str;
  validate_int := strict_int;
  validate_str_list := strict_str_list;
  str_validation_error := fun model fields => model ++ ": " ++ join ", " fields;
  json_string := fun s => DMLResponse.DQ ++ s ++ DMLResponse.DQ
|}.

(** A process with credentials, a warehouse that accepts every connection
    and every statement, and validators that accept exactly the values of
    the annotated type. *)
Definition stub_runtime : Runtime := {|
  str_float := fun _ => "0.0";
  dedent := fun s => s;
  environ := <["SNOWFLAKE_ACCOUNT" := "acct"]>
             (<["SNOWFLAKE_USER" := "user"]>
             (<["SNOWFLAKE_PASSWORD" := "secret"]> ∅));
  connector_installed := true;
  connect_error := fun _ _ _ => None;
  run_sql := fun _ => inr ([], 1%Z);
  validate_bool := strict_bool;
  validate_str := strict_str;
  validate_int := strict_int;
  validate_str_list := strict_str_list;
  str_validation_error := fun model fields => model ++ ": " ++ join ", " fields;
  json_string := fun s => DMLResponse.DQ ++ s ++ DMLResponse.DQ
|}.

Definition stub_manager : DMLManager.t :=
  {| DMLManager.connection :=
       {| conn_account := "acct"; conn_user := "user"; conn_password := "secret" |} |}.

(** * Properties *)

(** ** Texts *)

Lemma append_assoc (a b c : string) : (a ++ b) ++ c = a ++ (b ++ c).
Proof. induction a as [|x a IH]; simpl; [reflexivity | now rewrite IH]. Qed.

Lemma append_nil_r (a : string) : a ++ "" = a.
Proof. induction a as [|x a IH]; simpl; [reflexivity | now rewrite IH]. Qed.

(** Induction on a text along all its shorter texts: a character takes up
    to three bytes. *)
Lemma string_length_ind (P : string -> Prop) :
  (forall s, (forall r, (String.length r < String.length s)%nat -> P r) -> P s) ->
  forall s, P s.
Proof.
  intros Hstep s. apply Hstep.
  induction s as [|c s IH]; intros r Hr; simpl in Hr; [lia|].
  apply Hstep. intros r' Hr'. apply IH. lia.
Qed.

(** [lstrip] leaves nothing of a blank text. *)
Lemma lstrip_whitespace_only (s : string) :
  whitespace_only s = true -> lstrip s = "".
Proof.
  induction s as [s IH] using string_length_ind.
  destruct s as [|c1 r1]; [reflexivity|]. cbn [whitespace_only lstrip].
  destruct (isspace c1); [apply IH; simpl; lia|].
  destruct r1 as [|c2 r2]; [discriminate|].
  destruct (isspace2 c1 c2); [apply IH; simpl; lia|].
  destruct r2 as [|c3 r3]; [discriminate|].
  destruct (isspace3 c1 c2 c3); [apply IH; simpl; lia | discriminate].
Qed.

Lemma strip_whitespace_only (s : string) :
  whitespace_only s = true -> strip s = "".
Proof. intros Hs. unfold strip. now rewrite lstrip_whitespace_only. Qed.

(** What [lstrip] leaves of a text that is not blank is not blank. *)
Lemma lstrip_nonblank (s : string) :
  whitespace_only s = false -> whitespace_only (lstrip s) = false.
Proof.
  induction s as [s IH] using string_length_ind.
  destruct s as [|c1 r1]; [discriminate|]. intros Hs.
  cbn [whitespace_only] in Hs. cbn [lstrip].
  destruct (isspace c1) eqn:H1; [apply IH; [simpl; lia | exact Hs]|].
  destruct r1 as [|c2 r2]; [cbn [whitespace_only]; now rewrite H1|].
  destruct (isspace2 c1 c2) eqn:H2; [apply IH; [simpl; lia | exact Hs]|].
  destruct r2 as [|c3 r3]; [cbn [whitespace_only]; now rewrite H1, H2|].
  destruct (isspace3 c1 c2 c3) eqn:H3; [apply IH; [simpl; lia | exact Hs]|].
  cbn [whitespace_only]. now rewrite H1, H2, H3.
Qed.

Lemma rstrip_nonblank (s : string) :
  whitespace_only s = false -> rstrip s <> "".
Proof.
  destruct s as [|c rest]; [discriminate|]. intros Hs.
  cbn [rstrip]. now rewrite Hs.
Qed.

(** [s.strip() == ""] holds of the blank texts and of no other. *)
Lemma strip_empty (s : string) :
  String.eqb (strip s) "" = whitespace_only s.
Proof.
  destruct (whitespace_only s) eqn:Hs.
  - now rewrite strip_whitespace_only.
  - apply String.eqb_neq. unfold strip. now apply rstrip_nonblank, lstrip_nonblank.
Qed.

(** A character that does not occur in the needle cannot take part in a
    match: what follows it is irrelevant. *)
Lemma prefix_cut (c : ascii) (needle s rest : string) :
  has_char c needle = false ->
  String.prefix needle (s ++ String c rest) = String.prefix needle s.
Proof.
  revert s. induction needle as [|a needle IH]; intros s Hc.
  - now destruct s.
  - simpl in Hc. apply orb_false_elim in Hc as [Hca Hn].
    destruct s as [|b s]; simpl.
    + destruct (ascii_dec a c) as [->|]; [|reflexivity].
      now rewrite Ascii.eqb_refl in Hca.
    + destruct (ascii_dec a b); [apply IH, Hn | reflexivity].
Qed.

Lemma occurrences_cut (c : ascii) (needle s rest : string) :
  has_char c needle = false -> needle <> "" ->
  occurrences needle (s ++ String c rest) =
  (occurrences needle s + occurrences needle (String c rest))%nat.
Proof.
  intros Hc Hne. remember (occurrences needle (String c rest)) as k eqn:Hk.
  induction s as [|b s IH].
  - subst k. destruct needle; [congruence | reflexivity].
  - change (String b s ++ String c rest) with (String b (s ++ String c rest)).
    cbn [occurrences]. rewrite IH.
    change (String b (s ++ String c rest)) with (String b s ++ String c rest).
    rewrite prefix_cut by assumption. lia.
Qed.

(** A text without the first character of the needle holds no start of a
    match. *)
Lemma occurrences_skip (c : ascii) (needle s rest : string) :
  has_char c s = false ->
  occurrences (String c needle) (s ++ rest) = occurrences (String c needle) rest.
Proof.
  induction s as [|b s IH]; intros Hc; [reflexivity|].
  simpl in Hc. apply orb_false_elim in Hc as [Hb Hs].
  change (String b s ++ rest) with (String b (s ++ rest)).
  cbn [occurrences String.prefix]. rewrite IH by assumption.
  destruct (ascii_dec c b) as [->|]; [|reflexivity].
  now rewrite Ascii.eqb_refl in Hb.
Qed.

Lemma uint_text_unquoted (d : Decimal.uint) :
  has_char "'" (NilEmpty.string_of_uint d) = false.
Proof. induction d; simpl; auto. Qed.

Lemma str_int_unquoted (n : Z) : has_char "'" (str_int n) = false.
Proof.
  unfold str_int, NilZero.string_of_int, NilZero.string_of_uint.
  destruct (Z.to_int n) as [d|d]; destruct d; simpl; auto using uint_text_unquoted.
Qed.

(** A text that is not blank is not empty, and neither is what [strip]
    leaves of it. *)
Lemma nonblank_check (s : string) :
  whitespace_only s = false ->
  negb (nonempty s) || negb (nonempty (strip s)) = false.
Proof.
  intros Hs. unfold nonempty. rewrite strip_empty, Hs.
  destruct s; [discriminate | reflexivity].
Qed.

(** ** Traces *)

Lemma executed_app (t1 t2 : trace) :
  executed (t1 ++ t2)%list = (executed t1 ++ executed t2)%list.
Proof. unfold executed. apply omap_app. Qed.

Lemma connection_events_app (t1 t2 : trace) :
  connection_events (t1 ++ t2)%list =
  (connection_events t1 ++ connection_events t2)%list.
Proof. unfold connection_events. apply List.filter_app. Qed.

(** Normal form of the traces met below. *)
Ltac trace_simpl :=
  repeat (rewrite ?executed_app, ?connection_events_app; simpl);
  rewrite ?app_nil_r.

Section ManagerFacts.
Context `{Runtime}.
Implicit Types (self : DMLManager.t) (t : trace).

(** [execute_dml] sends its statement, and nothing else. *)
Lemma execute_dml_executed self dml t :
  executed (snd (DMLManager.execute_dml self dml t)) = (executed t ++ [dml])%list.
Proof.
  unfold DMLManager.execute_dml, bind, emit, raise, ret.
  destruct (run_sql dml) as [text|[rows n]]; simpl; trace_simpl;
    rewrite <- ?app_assoc; reflexivity.
Qed.

(** ... and succeeds when the driver accepts the statement. *)
Lemma execute_dml_success self dml t rows n :
  run_sql dml = inr (rows, n) ->
  exists r, fst (DMLManager.execute_dml self dml t) = Return r /\ success r = true.
Proof.
  intros Hrun. unfold DMLManager.execute_dml, bind, emit, raise, ret.
  rewrite Hrun. simpl. eauto.
Qed.

(** *** The value formatter *)

(** Null, boolean and integer values are never quoted (a float is written as
    Python writes it). *)
Lemma format_value_unquoted (v : value) :
  match v with VNone | VInt _ | VBool _ => true | _ => false end = true ->
  has_char "'" (DMLManager.format_value v) = false.
Proof.
  destruct v as [|n|f|[]|s]; intros Hv; try discriminate; try reflexivity.
  apply str_int_unquoted.
Qed.

(** C1, at the failing input: a boolean is an [int] for [isinstance], so the
    second branch of the formatter answers first and the value is written as
    Python writes it, [True] or [False]; the branch that spells [TRUE] and
    [FALSE] is never reached.  The same holds for the SET clauses of UPDATE
    and MERGE, and the statement sent by [insert_data] carries the text. *)
Theorem format_value_bool_python_text (b : bool) :
  DMLManager.format_value (VBool b) = (if b then "True" else "False") /\
  (forall col,
     DMLManager.format_set_clause col (VBool b) =
     col ++ " = " ++ (if b then "True" else "False")) /\
  (forall self t,
     executed (snd (DMLManager.insert_data self "db.sch.tbl" ["ok"] [VBool b] t)) =
     (executed t ++
      [(LF ++ IND8 ++ "INSERT INTO db.sch.tbl (ok)" ++ LF ++
        IND8 ++ "VALUES (" ++ (if b then "True" else "False") ++ ")" ++ LF ++
        IND8)%string])%list).
Proof.
  split; [|split].
  - now destruct b.
  - intros col. now destruct b.
  - intros self t. unfold DMLManager.insert_data. simpl.
    rewrite execute_dml_executed. now destruct b.
Qed.

(** *** SELECT *)

(** C10: an empty column list and an empty WHERE text are treated as absent;
    LIMIT and OFFSET are appended whenever a number is given, zero included;
    the statement sent is [SELECT <cols|*> FROM <table>] followed by the
    clauses supplied, always in the order WHERE, ORDER BY, LIMIT, OFFSET. *)
Theorem select_data_clauses self (table_name : string)
    (columns : option (list string)) (where_clause : option string)
    (order_by : option (list string)) (limit offset : option Z) t :
  length (split "." table_name) = 3%nat ->
  DMLManager.select_data self table_name columns where_clause order_by limit offset t =
    DMLManager.execute_dml self
      (select_statement table_name columns where_clause order_by limit offset) t /\
  DMLManager.select_data self table_name (Some []) where_clause order_by limit offset t =
    DMLManager.select_data self table_name None where_clause order_by limit offset t /\
  DMLManager.select_data self table_name columns (Some "") order_by limit offset t =
    DMLManager.select_data self table_name columns None order_by limit offset t /\
  DMLManager.select_data self table_name None None None (Some 0%Z) (Some 0%Z) t =
    DMLManager.execute_dml self ("SELECT * FROM " ++ table_name ++ " LIMIT 0 OFFSET 0") t /\
  select_statement table_name columns where_clause order_by limit offset =
    "SELECT " ++
    match columns with Some ((_ :: _) as cs) => join ", " cs | _ => "*" end ++
    " FROM " ++ table_name ++
    match where_clause with
    | Some w => if nonempty w then " WHERE " ++ w else ""
    | None => ""
    end ++
    match order_by with
    | Some ((_ :: _) as os) => " ORDER BY " ++ join ", " os
    | _ => ""
    end ++
    match limit with Some n => " LIMIT " ++ str_int n | None => "" end ++
    match offset with Some n => " OFFSET " ++ str_int n | None => "" end.
Proof.
  intros Hparts. unfold DMLManager.select_data. rewrite Hparts.
  change (negb (3 =? 3)%nat) with false. cbv beta iota zeta.
  repeat split.
  - f_equal. unfold select_statement.
    destruct columns as [[|c cs]|]; destruct where_clause as [w|];
      try destruct (nonempty w); destruct order_by as [[|o os]|];
      destruct limit, offset; cbv beta iota zeta;
      rewrite ?append_assoc, ?append_nil_r; reflexivity.
  - f_equal. now rewrite !append_assoc.
Qed.

(** *** DELETE *)

Lemma qualified_check (table_name : string) :
  length (split "." table_name) = 3%nat ->
  negb (length (split "." table_name) =? 3)%nat = false.
Proof. now intros ->. Qed.

Lemma blank_check (where_clause : string) :
  whitespace_only where_clause = true ->
  negb (nonempty where_clause) || String.eqb (strip where_clause) "" = true.
Proof.
  intros Hw. rewrite strip_whitespace_only by assumption.
  apply orb_true_r.
Qed.

(** The builder refuses a blank WHERE clause and touches nothing. *)
Lemma delete_data_blank self (table_name where_clause : string) t :
  whitespace_only where_clause = true ->
  exists msg,
    DMLManager.delete_data self table_name where_clause t =
    (Raise (DMLException msg "DELETE" table_name), t).
Proof.
  intros Hw. unfold DMLManager.delete_data.
  destruct (negb (length (split "." table_name) =? 3)%nat).
  - eexists. reflexivity.
  - rewrite blank_check by assumption. eexists. reflexivity.
Qed.

(** The statement built for the WHERE clause [id = 1]. *)
Lemma delete_data_statement self (table_name : string) t :
  length (split "." table_name) = 3%nat ->
  DMLManager.delete_data self table_name "id = 1" t =
  DMLManager.execute_dml self
    (LF ++ IND8 ++ "DELETE FROM " ++ table_name ++ LF ++
     IND8 ++ "WHERE " ++ "id = 1" ++ LF ++ IND8) t.
Proof.
  intros Hparts. unfold DMLManager.delete_data.
  rewrite qualified_check by assumption. reflexivity.
Qed.

(** The keyword WHERE occurs in it once more than in the table name. *)
Lemma delete_statement_where (table_name : string) :
  occurrences "WHERE"
    (LF ++ IND8 ++ "DELETE FROM " ++ table_name ++ LF ++
     IND8 ++ "WHERE " ++ "id = 1" ++ LF ++ IND8) =
  S (occurrences "WHERE" table_name).
Proof.
  unfold LF, IND8. simpl.
  rewrite occurrences_cut by (reflexivity || discriminate).
  simpl. lia.
Qed.

End ManagerFacts.

Section BuilderGuards.
Context `{Runtime}.
Implicit Types (self : DMLManager.t) (t : trace).

Lemma unqualified_check (table_name : string) :
  length (split "." table_name) <> 3%nat ->
  negb (length (split "." table_name) =? 3)%nat = true.
Proof. intros Hn. now apply negb_true_iff, Nat.eqb_neq. Qed.

Lemma mismatch_check {A B} (columns : list A) (values : list B) :
  length columns <> length values ->
  negb (length columns =? length values)%nat = true.
Proof. intros Hn. now apply negb_true_iff, Nat.eqb_neq. Qed.

(** Every operation of the builder refuses a table name that does not have
    exactly three parts, names the table in the failure, and touches
    nothing. *)
Lemma unqualified_table_rejected self (table_name : string) t :
  length (split "." table_name) <> 3%nat ->
  (forall columns where_clause order_by limit offset,
     exists msg,
       DMLManager.select_data self table_name columns where_clause order_by limit offset t =
       (Raise (DMLException msg "SELECT" table_name), t)) /\
  (forall columns values,
     exists msg,
       DMLManager.insert_data self table_name columns values t =
       (Raise (DMLException msg "INSERT" table_name), t)) /\
  (forall set_columns set_values where_clause,
     exists msg,
       DMLManager.update_data self table_name set_columns set_values where_clause t =
       (Raise (DMLException msg "UPDATE" table_name), t)) /\
  (forall where_clause,
     exists msg,
       DMLManager.delete_data self table_name where_clause t =
       (Raise (DMLException msg "DELETE" table_name), t)) /\
  (forall source_table merge_condition match_actions not_match_actions,
     exists msg,
       DMLManager.merge_data self table_name source_table merge_condition
         match_actions not_match_actions t =
       (Raise (DMLException msg "MERGE" table_name), t)).
Proof.
  intros Hparts. apply unqualified_check in Hparts.
  repeat split; intros;
    unfold DMLManager.select_data, DMLManager.insert_data, DMLManager.update_data,
      DMLManager.delete_data, DMLManager.merge_data;
    rewrite Hparts; eexists; reflexivity.
Qed.

(** One iteration of the WHEN MATCHED loop on a complete action: it either
    appends something, and then the action is no mismatched UPDATE, or it
    raises the mismatch failure. *)
Lemma matched_fragment_complete (target_table : string) (a : action_dict) :
  complete a = true ->
  (exists f, DMLManager.matched_fragment target_table a = Return f /\
             mismatched "UPDATE" a = false) \/
  DMLManager.matched_fragment target_table a =
    Raise (DMLException DMLManager.MATCHED_MISMATCH "MERGE" target_table).
Proof.
  unfold complete, mismatched, DMLManager.matched_fragment.
  destruct a as [[tag|] columns values]; simpl; [|discriminate].
  destruct (String.eqb tag "UPDATE") eqn:Hu; simpl.
  - destruct columns as [columns|], values as [values|]; try discriminate.
    intros _. simpl.
    destruct (negb (length columns =? length values)%nat); eauto.
  - intros _. left.
    destruct columns, values; destruct (String.eqb tag "DELETE"); eauto.
Qed.

Lemma not_matched_fragment_complete (target_table : string) (a : action_dict) :
  complete a = true ->
  (exists f, DMLManager.not_matched_fragment target_table a = Return f /\
             mismatched "INSERT" a = false) \/
  DMLManager.not_matched_fragment target_table a =
    Raise (DMLException DMLManager.NOT_MATCHED_MISMATCH "MERGE" target_table).
Proof.
  unfold complete, mismatched, DMLManager.not_matched_fragment.
  destruct a as [[tag|] columns values]; simpl; [|discriminate].
  destruct (String.eqb tag "INSERT") eqn:Hi; simpl.
  - rewrite orb_true_r.
    destruct columns as [columns|], values as [values|]; try discriminate.
    intros _. simpl.
    destruct (negb (length columns =? length values)%nat); eauto.
  - intros _. left. destruct columns, values; eauto.
Qed.

(** A loop whose iterations either append or raise [e]: it either runs to
    its end, and then no action was flagged, or it raises [e]. *)
Lemma append_each_guarded (fragment : action_dict -> outcome string)
    (flagged : action_dict -> bool) (e : exn) (actions : list action_dict) :
  (forall a, In a actions ->
     (exists f, fragment a = Return f /\ flagged a = false) \/ fragment a = Raise e) ->
  forall dml,
    (exists dml', append_each fragment actions dml = Return dml' /\
                  existsb flagged actions = false) \/
    append_each fragment actions dml = Raise e.
Proof.
  induction actions as [|a actions IH]; intros Hall dml; simpl.
  - left. eauto.
  - destruct (Hall a (or_introl eq_refl)) as [(f & -> & ->)| ->]; simpl; [|now right].
    apply IH. intros a' Ha'. apply Hall. now right.
Qed.

(** The assembly of a MERGE statement touches nothing: when it fails, the
    trace is as it was. *)
Lemma merge_data_assembly_failure self
    (target_table source_table merge_condition : string)
    (match_actions : list action_dict)
    (not_match_actions : option (list action_dict)) (e : exn) t :
  length (split "." target_table) = 3%nat ->
  DMLManager.merge_sql target_table source_table merge_condition
    match_actions not_match_actions = Raise e ->
  DMLManager.merge_data self target_table source_table merge_condition
    match_actions not_match_actions t = (Raise e, t).
Proof.
  intros Hparts Hsql. unfold DMLManager.merge_data, bind, lift.
  rewrite qualified_check by assumption. now rewrite Hsql.
Qed.

(** A list of complete actions with a mismatched UPDATE among the matched
    ones, or a mismatched INSERT among the others, is refused when the
    statement is assembled. *)
Lemma merge_sql_mismatch (target_table source_table merge_condition : string)
    (match_actions : list action_dict)
    (not_match_actions : option (list action_dict)) :
  forallb complete (match_actions ++ default [] not_match_actions)%list = true ->
  existsb (mismatched "UPDATE") match_actions
  || existsb (mismatched "INSERT") (default [] not_match_actions) = true ->
  exists msg,
    (msg = DMLManager.MATCHED_MISMATCH \/ msg = DMLManager.NOT_MATCHED_MISMATCH) /\
    DMLManager.merge_sql target_table source_table merge_condition
      match_actions not_match_actions =
    Raise (DMLException msg "MERGE" target_table).
Proof.
  intros Hall Hex.
  rewrite forallb_app in Hall. apply andb_prop in Hall as [Hm Hn].
  rewrite forallb_forall in Hm, Hn.
  unfold DMLManager.merge_sql. cbv beta iota zeta.
  destruct (append_each_guarded (DMLManager.matched_fragment target_table)
              (mismatched "UPDATE") _ match_actions
              (fun a Ha => matched_fragment_complete target_table a (Hm a Ha))
              (DMLManager.merge_head target_table source_table merge_condition))
    as [(dml & -> & Hnone)| ->]; simpl.
  2: { eexists. split; [left; reflexivity | reflexivity]. }
  rewrite Hnone in Hex. simpl in Hex.
  destruct not_match_actions as [[|a actions]|]; simpl in Hex; try discriminate.
  destruct (append_each_guarded (DMLManager.not_matched_fragment target_table)
              (mismatched "INSERT") _ (a :: actions)
              (fun a Ha => not_matched_fragment_complete target_table a (Hn a Ha))
              dml)
    as [(dml' & _ & Hnone')| ->].
  - simpl in Hnone'. rewrite Hnone' in Hex. discriminate.
  - eexists. split; [right; reflexivity | reflexivity].
Qed.

(** C3: a request whose column list and value list differ in length is
    refused by the builder with a failure that names the table, and the
    trace is left as it was: no cursor is opened and nothing is sent on the
    connection.  When the table name has its three parts the failure is the
    length-mismatch one.  For INSERT and UPDATE the request is the pair of
    lists; for MERGE it is any list of complete actions holding a mismatched
    UPDATE among the matched actions or a mismatched INSERT among the
    not-matched ones. *)
Theorem length_mismatch_rejected self (table_name : string) t :
  (forall columns values,
     length columns <> length values ->
     (exists msg,
        DMLManager.insert_data self table_name columns values t =
        (Raise (DMLException msg "INSERT" table_name), t) /\
        (length (split "." table_name) = 3%nat -> msg = DMLManager.LENGTH_MISMATCH)) /\
     (forall where_clause,
      exists msg,
        DMLManager.update_data self table_name columns values where_clause t =
        (Raise (DMLException msg "UPDATE" table_name), t) /\
        (length (split "." table_name) = 3%nat -> msg = DMLManager.LENGTH_MISMATCH))) /\
  (forall source_table merge_condition match_actions not_match_actions,
     forallb complete (match_actions ++ default [] not_match_actions)%list = true ->
     existsb (mismatched "UPDATE") match_actions
     || existsb (mismatched "INSERT") (default [] not_match_actions) = true ->
     exists msg,
       DMLManager.merge_data self table_name source_table merge_condition
         match_actions not_match_actions t =
       (Raise (DMLException msg "MERGE" table_name), t) /\
       (length (split "." table_name) = 3%nat ->
        msg = DMLManager.MATCHED_MISMATCH \/ msg = DMLManager.NOT_MATCHED_MISMATCH)).
Proof.
  destruct (Nat.eq_dec (length (split "." table_name)) 3) as [Hparts|Hparts].
  - split.
    + intros columns values Hlen. apply mismatch_check in Hlen.
      unfold DMLManager.insert_data, DMLManager.update_data.
      rewrite (qualified_check _ Hparts), Hlen.
      split; [|intros where_clause]; eexists; (split; [reflexivity|auto]).
    + intros source_table merge_condition match_actions not_match_actions Hall Hex.
      destruct (merge_sql_mismatch table_name source_table merge_condition
                  match_actions not_match_actions Hall Hex) as (msg & Hmsg & Hsql).
      exists msg. split; [|auto].
      now apply merge_data_assembly_failure.
  - destruct (unqualified_table_rejected self table_name t Hparts)
      as (_ & Hins & Hupd & _ & Hmerge).
    split.
    + intros columns values _. split.
      * destruct (Hins columns values) as (msg & ->).
        exists msg. split; [reflexivity | contradiction].
      * intros where_clause. destruct (Hupd columns values where_clause) as (msg & ->).
        exists msg. split; [reflexivity | contradiction].
    + intros source_table merge_condition match_actions not_match_actions _ _.
      destruct (Hmerge source_table merge_condition match_actions not_match_actions)
        as (msg & ->).
      exists msg. split; [reflexivity | contradiction].
Qed.

(** The builder has no guard on the list of matched actions: with none, it
    sends the head of the statement alone. *)
Lemma merge_data_no_actions self (target_table source_table merge_condition : string) t :
  length (split "." target_table) = 3%nat ->
  DMLManager.merge_data self target_table source_table merge_condition [] None t =
  DMLManager.execute_dml self
    (DMLManager.merge_head target_table source_table merge_condition) t.
Proof.
  intros Hparts. unfold DMLManager.merge_data.
  rewrite qualified_check by assumption. reflexivity.
Qed.

(** When none of the texts interpolated into the statement holds the letter
    W, each of the two keywords occurs exactly once in it. *)
Lemma merge_statement_keywords
    (target_table source_table merge_condition sets columns values : string) :
  forallb (fun s => negb (has_char "W" s))
    [target_table; source_table; merge_condition; sets; columns; values] = true ->
  let sql :=
    DMLManager.merge_head target_table source_table merge_condition ++
    (LF ++ "WHEN MATCHED THEN UPDATE SET " ++ sets) ++
    (LF ++ "WHEN NOT MATCHED THEN INSERT (" ++ columns ++ ") VALUES (" ++ values ++ ")") in
  occurrences "WHEN MATCHED THEN UPDATE SET" sql = 1%nat /\
  occurrences "WHEN NOT MATCHED THEN INSERT" sql = 1%nat.
Proof.
  cbn [forallb]. rewrite !andb_true_iff, !negb_true_iff.
  intros (Ht & Hs & Hc & Hsets & Hcols & Hvals & _).
  unfold DMLManager.merge_head, LF, IND8. rewrite !append_assoc.
  split; simpl;
    repeat (rewrite occurrences_skip by assumption; simpl); reflexivity.
Qed.

(** C5: with one matched UPDATE action and one not-matched INSERT action the
    two loops append one fragment each: the statement sent is the head, then
    the single [WHEN MATCHED THEN UPDATE SET] clause, then the single
    [WHEN NOT MATCHED THEN INSERT] clause.  As a text, the statement holds
    each of the two keywords exactly once whenever the texts interpolated
    into it do not hold the letter W themselves. *)
Theorem merge_data_update_then_insert self
    (target_table source_table merge_condition : string)
    (update_columns : list string) (update_values : list value)
    (insert_columns : list string) (insert_values : list value) t :
  length (split "." target_table) = 3%nat ->
  length update_columns = length update_values ->
  length insert_columns = length insert_values ->
  let update :=
    {| act_action := Some "UPDATE"; act_columns := Some update_columns;
       act_values := Some update_values |} in
  let insert :=
    {| act_action := Some "INSERT"; act_columns := Some insert_columns;
       act_values := Some insert_values |} in
  let head := DMLManager.merge_head target_table source_table merge_condition in
  let matched :=
    LF ++ "WHEN MATCHED THEN UPDATE SET " ++
    join ", " (zip_with DMLManager.format_set_clause update_columns update_values) in
  let not_matched :=
    LF ++ "WHEN NOT MATCHED THEN INSERT (" ++ join ", " insert_columns ++
    ") VALUES (" ++ join ", " (map DMLManager.format_value insert_values) ++ ")" in
  map (DMLManager.matched_fragment target_table) [update] = [Return matched] /\
  map (DMLManager.not_matched_fragment target_table) [insert] = [Return not_matched] /\
  DMLManager.merge_sql target_table source_table merge_condition
    [update] (Some [insert]) = Return (head ++ matched ++ not_matched) /\
  DMLManager.merge_data self target_table source_table merge_condition
    [update] (Some [insert]) t =
  DMLManager.execute_dml self (head ++ matched ++ not_matched) t /\
  (forallb (fun s => negb (has_char "W" s))
     [target_table; source_table; merge_condition;
      join ", " (zip_with DMLManager.format_set_clause update_columns update_values);
      join ", " insert_columns;
      join ", " (map DMLManager.format_value insert_values)] = true ->
   occurrences "WHEN MATCHED THEN UPDATE SET" (head ++ matched ++ not_matched) = 1%nat /\
   occurrences "WHEN NOT MATCHED THEN INSERT" (head ++ matched ++ not_matched) = 1%nat).
Proof.
  intros Hparts Hu Hi update insert head matched not_matched.
  assert (Hm : DMLManager.matched_fragment target_table update = Return matched).
  { unfold DMLManager.matched_fragment, update. simpl.
    rewrite Hu, Nat.eqb_refl. reflexivity. }
  assert (Hn : DMLManager.not_matched_fragment target_table insert = Return not_matched).
  { unfold DMLManager.not_matched_fragment, insert. simpl.
    rewrite Hi, Nat.eqb_refl. reflexivity. }
  assert (Hsql : DMLManager.merge_sql target_table source_table merge_condition
                   [update] (Some [insert]) = Return (head ++ matched ++ not_matched)).
  { unfold DMLManager.merge_sql. cbn [append_each]. rewrite Hm.
    cbn [obind append_each]. rewrite Hn. cbn [obind].
    fold head. now rewrite append_assoc. }
  split; [|split; [|split; [|split]]].
  - cbn [map]. now rewrite Hm.
  - cbn [map]. now rewrite Hn.
  - exact Hsql.
  - unfold DMLManager.merge_data. rewrite qualified_check by assumption.
    rewrite Hsql. reflexivity.
  - apply merge_statement_keywords.
Qed.

End BuilderGuards.

Section ToolGuards.
Context `{Runtime}.
Implicit Types (self : DMLManager.t) (t : trace).

(** The tool refuses a blank WHERE clause before it asks for a connection. *)
Lemma delete_tool_blank (table_name where_clause : string) t :
  whitespace_only where_clause = true ->
  exists msg t',
    DMLTools.delete_data table_name where_clause t = (Raise (ToolError msg), t') /\
    connection_events t' = connection_events t.
Proof.
  intros Hw. unfold DMLTools.delete_data, try_except, bind, emit, DMLTools.raise_if, raise.
  rewrite blank_check by assumption. cbn [is_SnowflakeException].
  eexists _, _. split; [reflexivity|]. now trace_simpl.
Qed.

(** C2: a DELETE whose WHERE clause is empty or blank fails, in the builder
    and in the tool, and no statement is sent: the builder leaves the trace
    as it was and the tool adds no event of the connection.  Blank is what
    [strip] empties: white space only, that outside the ASCII range (the
    no-break space, the ideographic space, ...) included.  With the WHERE
    clause [id = 1] and a table name of three parts the builder sends one
    statement, [DELETE FROM <table>] followed by the clause [WHERE id = 1];
    the keyword WHERE occurs in it once more than in the table name, so
    exactly once when the table name does not hold it; and the call succeeds
    when the driver accepts the statement. *)
Theorem delete_data_where_clause self (table_name where_clause : string) t :
  (whitespace_only where_clause = true ->
   (exists msg,
      DMLManager.delete_data self table_name where_clause t =
      (Raise (DMLException msg "DELETE" table_name), t)) /\
   (exists msg t',
      DMLTools.delete_data table_name where_clause t = (Raise (ToolError msg), t') /\
      connection_events t' = connection_events t)) /\
  (length (split "." table_name) = 3%nat ->
   let sql :=
     LF ++ IND8 ++ "DELETE FROM " ++ table_name ++ LF ++
     IND8 ++ "WHERE " ++ "id = 1" ++ LF ++ IND8 in
   DMLManager.delete_data self table_name "id = 1" t =
     DMLManager.execute_dml self sql t /\
   executed (snd (DMLManager.delete_data self table_name "id = 1" t)) =
     (executed t ++ [sql])%list /\
   occurrences "WHERE" sql = S (occurrences "WHERE" table_name) /\
   (forall rows n,
      run_sql sql = inr (rows, n) ->
      exists r,
        fst (DMLManager.delete_data self table_name "id = 1" t) = Return r /\
        success r = true)).
Proof.
  split.
  - intros Hw. split.
    + now apply delete_data_blank.
    + now apply delete_tool_blank.
  - intros Hparts sql.
    rewrite (delete_data_statement self table_name t Hparts). fold sql.
    split; [reflexivity|]. split; [apply execute_dml_executed|].
    split; [apply delete_statement_where|].
    intros rows n Hrun. eapply execute_dml_success, Hrun.
Qed.

(** The tool refuses an empty list of matched actions before it asks for a
    connection. *)
Lemma merge_tool_no_actions (target_table source_table merge_condition : string)
    (not_match_actions : option (list action_dict)) t :
  exists msg t',
    DMLTools.merge_data target_table source_table merge_condition []
      not_match_actions t = (Raise (ToolError msg), t') /\
    String.prefix "Validation error: " msg = true /\
    connection_events t' = connection_events t.
Proof.
  unfold DMLTools.merge_data, try_except, bind, emit, DMLTools.raise_if, raise, ret.
  destruct (negb (nonempty target_table) || negb (nonempty (strip target_table)));
    [|destruct (negb (nonempty source_table) || negb (nonempty (strip source_table)));
      [|destruct (negb (nonempty merge_condition)
                  || negb (nonempty (strip merge_condition)))]];
    cbn [is_ValidationException orb];
    (eexists _, _; split; [reflexivity|]; split; [reflexivity|]; now trace_simpl).
Qed.

(** C9, as amended: for an empty list of matched actions it is the tool that
    signals the failure, a validation error raised before a builder is made,
    so that no event of the connection is added; when the three texts of the
    request are not blank (none is emptied by [strip], which drops the white
    space of Python, that outside the ASCII range included) the error is the
    one about the missing action.
    The builder itself has no such guard: called with no action at all it
    sends the head of the MERGE statement, without any WHEN clause. *)
Theorem merge_empty_actions_guard (target_table source_table merge_condition : string)
    (not_match_actions : option (list action_dict)) t :
  (exists msg t',
     DMLTools.merge_data target_table source_table merge_condition []
       not_match_actions t = (Raise (ToolError msg), t') /\
     String.prefix "Validation error: " msg = true /\
     connection_events t' = connection_events t) /\
  (whitespace_only target_table = false ->
   whitespace_only source_table = false ->
   whitespace_only merge_condition = false ->
   exists t',
     DMLTools.merge_data target_table source_table merge_condition []
       not_match_actions t =
     (Raise (ToolError
        "Validation error: Validation Error in 'match_actions': At least one match action is required"),
      t')) /\
  (forall self,
     length (split "." target_table) = 3%nat ->
     DMLManager.merge_data self target_table source_table merge_condition [] None t =
     DMLManager.execute_dml self
       (DMLManager.merge_head target_table source_table merge_condition) t).
Proof.
  split; [apply merge_tool_no_actions|]. split.
  - intros Ht Hs Hc.
    unfold DMLTools.merge_data, try_except, bind, emit, DMLTools.raise_if, raise, ret.
    rewrite !nonblank_check by assumption.
    cbn [is_ValidationException orb]. eexists. reflexivity.
  - intros self Hparts. now apply merge_data_no_actions.
Qed.

End ToolGuards.

Section Credentials.
Context `{Runtime}.

(** The value of [a or b] when it is usable, and of [a or b or c]. *)
Lemma py_or_first_given (a b : option string) :
  (if truthy_opt (py_or a b) then py_or a b else None) = first_given [a; b].
Proof.
  destruct (truthy_opt a) eqn:Ha, (truthy_opt b) eqn:Hb;
    unfold py_or; simpl; rewrite ?Ha, ?Hb; simpl; rewrite ?Ha, ?Hb; reflexivity.
Qed.

Lemma py_or_first_given3 (a b c : option string) :
  (if truthy_opt (py_or (py_or a b) c) then py_or (py_or a b) c else None) =
  first_given [a; b; c].
Proof.
  destruct (truthy_opt a) eqn:Ha, (truthy_opt b) eqn:Hb, (truthy_opt c) eqn:Hc;
    unfold py_or; simpl;
    repeat (rewrite ?Ha, ?Hb, ?Hc; simpl); reflexivity.
Qed.

(** C8: each credential is the first non-empty text among the explicit
    argument, the primary environment variable and, for the secret only,
    the fallback variable; with the three resolved, the connection is opened
    with them; with one or more unresolved, the attempt fails before any
    connection is opened and the exception lists every unresolved item. *)
Theorem credentials_precedence (account_identifier username password : option string)
    (t : trace) :
  connector_installed = true ->
  let account := first_given [account_identifier; getenv "SNOWFLAKE_ACCOUNT"] in
  let user := first_given [username; getenv "SNOWFLAKE_USER"] in
  let secret :=
    first_given [password; getenv "SNOWFLAKE_PAT"; getenv "SNOWFLAKE_PASSWORD"] in
  let missing :=
    (match account with None => [MISSING_ACCOUNT] | Some _ => [] end ++
     match user with None => [MISSING_USER] | Some _ => [] end ++
     match secret with None => [MISSING_PASSWORD] | Some _ => [] end)%list in
  match account, user, secret with
  | Some a, Some u, Some p =>
      snd (get_snowflake_connection account_identifier username password t) =
      (t ++ [EvConnect a u p])%list
  | _, _, _ =>
      get_snowflake_connection account_identifier username password t =
      (Raise (MissingArgumentsException missing), t)
  end.
Proof.
  intros Hinst account user secret missing.
  subst account user secret missing.
  rewrite <- !py_or_first_given, <- py_or_first_given3.
  unfold get_snowflake_connection. rewrite Hinst. cbn [negb].
  generalize (py_or (py_or password (getenv "SNOWFLAKE_PAT"))
                     (getenv "SNOWFLAKE_PASSWORD")).
  generalize (py_or username (getenv "SNOWFLAKE_USER")).
  generalize (py_or account_identifier (getenv "SNOWFLAKE_ACCOUNT")).
  intros a u p.
  destruct a as [a'|], u as [u'|], p as [p'|]; cbn [truthy_opt];
    repeat match goal with
           | |- context [nonempty ?x] => destruct (nonempty x)
           end;
    cbn [app default]; try reflexivity;
    unfold bind, emit, raise, ret, id; now destruct (connect_error a' u' p').
Qed.

End Credentials.

Section Normalizer.
Context `{Runtime}.

Lemma raw_dict_success r : raw_dict r !! "success" = Some (PyVal (VBool (success r))).
Proof. unfold raw_dict. now simplify_map_eq. Qed.

Lemma raw_dict_message r : raw_dict r !! "message" = Some (PyVal (VStr (message r))).
Proof. unfold raw_dict. now simplify_map_eq. Qed.

Lemma raw_dict_results r : raw_dict r !! "results" = Some (PyList (map VStr (results r))).
Proof. unfold raw_dict. now simplify_map_eq. Qed.

Lemma raw_dict_rows_affected r :
  raw_dict r !! "rows_affected" = Some (PyVal (VInt (rows_affected r))).
Proof. unfold raw_dict. now simplify_map_eq. Qed.

(** C6: with validators that accept the four values of the example, the raw
    result [{success: true, message: "ok", results: ["a", "b"],
    rows_affected: 2}] is normalized into an envelope with two results and
    two affected rows; and whatever the validators, a raw result without
    [rows_affected] is refused with a validation error that names the
    field: no default is supplied. *)
Theorem parse_dml_response_shape :
  (validate_bool (PyVal (VBool true)) = Some true ->
   validate_str (PyVal (VStr "ok")) = Some "ok" ->
   validate_str_list (PyList [VStr "a"; VStr "b"]) = Some ["a"; "b"] ->
   validate_int (PyVal (VInt 2)) = Some 2%Z ->
   let raw :=
     raw_dict {| success := true; message := "ok"; results := ["a"; "b"];
                 rows_affected := 2 |} in
   exists envelope,
     DMLResponse.new raw = Return envelope /\
     length (DMLResponse.results envelope) = 2%nat /\
     DMLResponse.rows_affected envelope = 2%Z /\
     SnowflakeResponse.parse_dml_response raw =
       Return (DMLResponse.model_dump_json envelope)) /\
  (forall raw : gmap string pyobj,
     raw !! "rows_affected" = None ->
     exists fields,
       SnowflakeResponse.parse_dml_response raw =
         Raise (ValidationError "DMLResponse" fields) /\
       In "rows_affected" fields).
Proof.
  split.
  - intros Hb Hs Hl Hn raw.
    unfold SnowflakeResponse.parse_dml_response, DMLResponse.new, DMLResponse.field.
    subst raw.
    rewrite raw_dict_success, raw_dict_message, raw_dict_results, raw_dict_rows_affected.
    cbn [success message results rows_affected map].
    rewrite Hb, Hs, Hl, Hn. eexists. repeat split.
  - intros raw Hnone.
    unfold SnowflakeResponse.parse_dml_response, DMLResponse.new.
    assert (Hf : DMLResponse.field validate_int "rows_affected" raw = None).
    { unfold DMLResponse.field. now rewrite Hnone. }
    rewrite Hf.
    destruct (DMLResponse.field validate_bool "success" raw),
             (DMLResponse.field validate_str "message" raw),
             (DMLResponse.field validate_str_list "results" raw);
      cbn [obind]; eexists; (split; [reflexivity|]);
      cbn [DMLResponse.failed app]; auto with datatypes.
Qed.

End Normalizer.

Section Security.
Context `{Runtime}.
Import SnowflakeSecurityMiddleware.

(** One scan logs at most one warning, and logs one when some keyword is
    found. *)
Lemma scan_trace (tool sql : string) (keywords : list string) (t : trace) :
  exists l,
    scan tool sql keywords t = (Return tt, (t ++ l)%list) /\
    forallb is_warning l = true /\
    (existsb (fun k => contains k sql) keywords = true -> l <> []).
Proof.
  induction keywords as [|k keywords IH]; simpl.
  - exists []. rewrite app_nil_r. repeat split. discriminate.
  - destruct (contains k sql).
    + eexists [_]. repeat split. discriminate.
    + exact IH.
Qed.

(** The loop over the fields logs warnings only, and at least one when a
    scanned field holds a keyword. *)
Lemma scan_fields_trace (keywords : list string) (tool : string)
    (args : gmap string value) (fields : list string) (t : trace) :
  exists l,
    scan_fields keywords tool args fields t = (Return tt, (t ++ l)%list) /\
    forallb is_warning l = true /\
    (forall field v,
       In field fields -> args !! field = Some v -> truthy v = true ->
       existsb (fun k => contains k (lower (py_str v))) keywords = true ->
       l <> []).
Proof.
  revert t. induction fields as [|f fields IH]; intros t; simpl.
  - exists []. rewrite app_nil_r. repeat split. intros ? ? [].
  - unfold bind.
    assert (Hstep : exists l1,
              match args !! f with
              | Some v =>
                  if truthy v then scan tool (lower (py_str v)) keywords else ret tt
              | None => ret tt
              end t = (Return tt, (t ++ l1)%list) /\
              forallb is_warning l1 = true /\
              (forall v, args !! f = Some v -> truthy v = true ->
                 existsb (fun k => contains k (lower (py_str v))) keywords = true ->
                 l1 <> [])).
    { destruct (args !! f) as [v|] eqn:Hf.
      - destruct (truthy v) eqn:Hv.
        + destruct (scan_trace tool (lower (py_str v)) keywords t) as (l1 & -> & Hw & Hne).
          exists l1. repeat split; auto. intros v' [= <-] _. exact Hne.
        + exists []. unfold ret. rewrite app_nil_r. repeat split.
          intros v' [= <-]. congruence.
      - exists []. unfold ret. rewrite app_nil_r. repeat split. discriminate. }
    destruct Hstep as (l1 & -> & Hw1 & Hne1).
    destruct (IH (t ++ l1)%list) as (l2 & -> & Hw2 & Hne2).
    exists (l1 ++ l2)%list. rewrite app_assoc. split; [reflexivity|]. split.
    + rewrite forallb_app, Hw1, Hw2. reflexivity.
    + intros field v [<-|Hin] Hf Hv Hk.
      * specialize (Hne1 v Hf Hv Hk). now destruct l1.
      * specialize (Hne2 field v Hin Hf Hv Hk). destruct l1; [exact Hne2|discriminate].
Qed.

(** On the fields it scans the interceptor detects and does not block: when
    one of [ddl_statement], [sql_statement], [query] or [statement] holds
    [drop database] in any letter case, at least one warning is logged,
    nothing but warnings is logged, and the call goes on to the next layer
    with the same context, whatever the order in which the set of keywords
    is iterated. *)
Lemma security_detects {R} (keywords : list string) (context : MiddlewareContext)
    (args : gmap string value) (field : string) (v : value)
    (call_next : MiddlewareContext -> Py R) (t : trace) :
  Permutation DANGEROUS_KEYWORDS keywords ->
  arguments context = Some (Some args) ->
  In field sql_fields ->
  args !! field = Some v ->
  truthy v = true ->
  contains "drop database" (lower (py_str v)) = true ->
  exists l,
    l <> [] /\ forallb is_warning l = true /\
    on_call_tool keywords context call_next t = call_next context (t ++ l)%list.
Proof.
  intros Hperm Hargs Hfield Hv Htruthy Hdrop.
  unfold on_call_tool. rewrite Hargs. change (default ∅ (Some args)) with args.
  destruct (scan_fields_trace keywords (default "unknown" (tool_name context))
              args sql_fields t) as (l & Hscan & Hw & Hne).
  exists l. split; [|split; [exact Hw|]].
  - apply (Hne field v Hfield Hv Htruthy).
    apply existsb_exists. exists "drop database". split; [|exact Hdrop].
    eapply Permutation_in; [exact Hperm|]. now left.
  - unfold bind. now rewrite Hscan.
Qed.

(** C7, at the failing input: the argument of the tool
    [execute_dml_statement] is called [dml_statement], a name that is not
    among the fields the interceptor scans.  Whatever its text, [DROP
    DATABASE prod] included, and whatever the order of the keywords, no
    warning is logged: the call goes on to the next layer on the unchanged
    trace. *)
Theorem security_scan_misses_dml_statement {R} (keywords : list string)
    (text : string) (call_next : MiddlewareContext -> Py R) (t : trace) :
  let context :=
    {| tool_name := Some "execute_dml_statement";
       arguments := Some (Some {[ "dml_statement" := VStr text ]}) |} in
  contains "drop database" (lower "DROP DATABASE prod") = true /\
  ~ In "dml_statement" sql_fields /\
  on_call_tool keywords context call_next t = call_next context t.
Proof.
  intros context. split; [reflexivity|]. split.
  - intros Hin. cbn in Hin. intuition discriminate.
  - unfold on_call_tool, context, sql_fields, scan_fields, bind, ret.
    cbn [arguments default tool_name]. unfold id.
    rewrite !lookup_singleton_ne by done. reflexivity.
Qed.

End Security.

(** ** Closed instances *)

(** C4, at the failing input: the tool [update_data] writes the table name
    into the statement as it is given.  For the table name [tbl], which has
    one part and not three, no failure is signalled: the statement
    [UPDATE tbl SET x = 1 WHERE id = 1] is built and sent, and the tool
    returns normally. *)
Theorem update_tool_unqualified_table :
  length (split "." "tbl") <> 3%nat /\
  exists text t',
    @DMLTools.update_data stub_runtime "tbl" "x = 1" "id = 1" [] = (Return text, t') /\
    executed t' = ["UPDATE tbl SET x = 1 WHERE id = 1"].
Proof.
  split; [vm_compute; lia|].
  eexists _, _. split; vm_compute; reflexivity.
Qed.

(** The builder called with no matched action signals nothing: it sends a
    MERGE statement without any WHEN clause. *)
Lemma builder_accepts_no_matched_action :
  ~ (exists e t',
       @DMLManager.merge_data stub_runtime stub_manager "db.sch.tbl" "src"
         "target.id = source.id" [] None [] = (Raise e, t')) /\
  executed (snd (@DMLManager.merge_data stub_runtime stub_manager "db.sch.tbl" "src"
                   "target.id = source.id" [] None [])) =
  [DMLManager.merge_head "db.sch.tbl" "src" "target.id = source.id"].
Proof.
  split; [|vm_compute; reflexivity].
  intros (e & t' & Hraise). vm_compute in Hraise. discriminate.
Qed.

Lemma delete_data_where_clause_witness :
  whitespace_only (" " ++ NBSP ++ IDEOGRAPHIC_SPACE) = true /\
  length (split "." "db.sch.tbl") = 3%nat /\
  (exists msg,
     @DMLManager.delete_data stub_runtime stub_manager "db.sch.tbl"
       (" " ++ NBSP ++ IDEOGRAPHIC_SPACE) [] =
     (Raise (DMLException msg "DELETE" "db.sch.tbl"), [])) /\
  (exists msg t',
     @DMLTools.delete_data stub_runtime "db.sch.tbl"
       (" " ++ NBSP ++ IDEOGRAPHIC_SPACE) [] = (Raise (ToolError msg), t') /\
     connection_events t' = connection_events []) /\
  occurrences "WHERE"
    (LF ++ IND8 ++ "DELETE FROM " ++ "db.sch.tbl" ++ LF ++
     IND8 ++ "WHERE " ++ "id = 1" ++ LF ++ IND8) = 1%nat.
Proof.
  destruct (@delete_data_where_clause stub_runtime stub_manager "db.sch.tbl"
              (" " ++ NBSP ++ IDEOGRAPHIC_SPACE) [])
    as [Hblank Hsql].
  split; [reflexivity|]. split; [reflexivity|].
  split; [apply Hblank; reflexivity|].
  split; [apply Hblank; reflexivity|].
  apply (Hsql eq_refl).
Defined.

Lemma length_mismatch_rejected_witness :
  let update :=
    {| act_action := Some "UPDATE"; act_columns := Some ["id"; "name"];
       act_values := Some [VInt 1] |} in
  length ["id"; "name"] <> length [VInt 1] /\
  length (split "." "db.sch.tbl") = 3%nat /\
  forallb complete ([update] ++ default [] None)%list = true /\
  existsb (mismatched "UPDATE") [update]
  || existsb (mismatched "INSERT") (default [] None) = true /\
  (exists msg,
     @DMLManager.insert_data stub_runtime stub_manager "db.sch.tbl" ["id"; "name"]
       [VInt 1] [] = (Raise (DMLException msg "INSERT" "db.sch.tbl"), []) /\
     msg = DMLManager.LENGTH_MISMATCH) /\
  (exists msg,
     @DMLManager.merge_data stub_runtime stub_manager "db.sch.tbl" "src"
       "target.id = source.id" [update] None [] =
     (Raise (DMLException msg "MERGE" "db.sch.tbl"), []) /\
     (msg = DMLManager.MATCHED_MISMATCH \/ msg = DMLManager.NOT_MATCHED_MISMATCH)).
Proof.
  intros update.
  assert (Hlen : length ["id"; "name"] <> length [VInt 1]) by (simpl; lia).
  destruct (@length_mismatch_rejected stub_runtime stub_manager "db.sch.tbl" [])
    as [Hlists Hmerge].
  split; [exact Hlen|]. split; [reflexivity|]. split; [reflexivity|].
  split; [reflexivity|]. split.
  - destruct (Hlists ["id"; "name"] [VInt 1] Hlen) as ((msg & Hraise & Hmsg) & _).
    exists msg. split; [exact Hraise | exact (Hmsg eq_refl)].
  - destruct (Hmerge "src" "target.id = source.id" [update] None eq_refl eq_refl)
      as (msg & Hraise & Hmsg).
    exists msg. split; [exact Hraise | exact (Hmsg eq_refl)].
Defined.

Lemma merge_data_update_then_insert_witness :
  length (split "." "db.sch.tbl") = 3%nat /\
  let sql :=
    DMLManager.merge_head "db.sch.tbl" "src" "target.id = source.id" ++
    (LF ++ "WHEN MATCHED THEN UPDATE SET name = 'source.name'") ++
    (LF ++ "WHEN NOT MATCHED THEN INSERT (id, name) VALUES (1, NULL)") in
  executed (snd (@DMLManager.merge_data stub_runtime stub_manager "db.sch.tbl" "src"
                   "target.id = source.id"
                   [{| act_action := Some "UPDATE"; act_columns := Some ["name"];
                       act_values := Some [VStr "source.name"] |}]
                   (Some [{| act_action := Some "INSERT"; act_columns := Some ["id"; "name"];
                             act_values := Some [VInt 1; VNone] |}]) [])) = [sql] /\
  occurrences "WHEN MATCHED THEN UPDATE SET" sql = 1%nat /\
  occurrences "WHEN NOT MATCHED THEN INSERT" sql = 1%nat.
Proof.
  split; [reflexivity|].
  destruct (@merge_data_update_then_insert stub_runtime stub_manager "db.sch.tbl" "src"
              "target.id = source.id" ["name"] [VStr "source.name"]
              ["id"; "name"] [VInt 1; VNone] [] eq_refl eq_refl eq_refl)
    as (_ & _ & _ & Hsent & Hcount).
  split.
  - rewrite Hsent. reflexivity.
  - apply (Hcount eq_refl).
Defined.

Lemma parse_dml_response_shape_witness :
  exists envelope,
    @DMLResponse.new stub_runtime
      (raw_dict {| success := true; message := "ok"; results := ["a"; "b"];
                   rows_affected := 2 |}) = Return envelope /\
    length (DMLResponse.results envelope) = 2%nat /\
    DMLResponse.rows_affected envelope = 2%Z.
Proof.
  destruct (proj1 (@parse_dml_response_shape stub_runtime)
              eq_refl eq_refl eq_refl eq_refl)
    as (envelope & Hnew & Hlen & Hrows & _).
  exists envelope. auto.
Defined.

Lemma credentials_precedence_witness :
  @connector_installed bare_runtime = true /\
  @get_snowflake_connection bare_runtime (Some "acct") None None [] =
  (Raise (MissingArgumentsException [MISSING_USER; MISSING_PASSWORD]), []).
Proof.
  split; [reflexivity|].
  exact (@credentials_precedence bare_runtime (Some "acct") None None [] eq_refl).
Defined.

Lemma merge_empty_actions_guard_witness :
  whitespace_only "db.sch.tbl" = false /\
  whitespace_only "src" = false /\
  whitespace_only "target.id = source.id" = false /\
  length (split "." "db.sch.tbl") = 3%nat /\
  (exists t',
     @DMLTools.merge_data stub_runtime "db.sch.tbl" "src" "target.id = source.id" []
       None [] =
     (Raise (ToolError
        "Validation error: Validation Error in 'match_actions': At least one match action is required"),
      t')) /\
  @DMLManager.merge_data stub_runtime stub_manager "db.sch.tbl" "src"
    "target.id = source.id" [] None [] =
  @DMLManager.execute_dml stub_runtime stub_manager
    (DMLManager.merge_head "db.sch.tbl" "src" "target.id = source.id") [].
Proof.
  destruct (@merge_empty_actions_guard stub_runtime "db.sch.tbl" "src"
              "target.id = source.id" None [])
    as (_ & Htool & Hbuilder).
  repeat (split; [reflexivity|]). split.
  - apply Htool; reflexivity.
  - apply Hbuilder. reflexivity.
Defined.

Lemma select_data_clauses_witness :
  length (split "." "db.sch.tbl") = 3%nat /\
  @DMLManager.select_data stub_runtime stub_manager "db.sch.tbl" (Some ["id"; "name"])
    (Some "id > 1") (Some ["id"]) (Some 0%Z) (Some 0%Z) [] =
  @DMLManager.execute_dml stub_runtime stub_manager
    "SELECT id, name FROM db.sch.tbl WHERE id > 1 ORDER BY id LIMIT 0 OFFSET 0" [].
Proof.
  split; [reflexivity|].
  exact (proj1 (@select_data_clauses stub_runtime stub_manager "db.sch.tbl"
                  (Some ["id"; "name"]) (Some "id > 1") (Some ["id"])
                  (Some 0%Z) (Some 0%Z) [] eq_refl)).
Defined.

(** * Further properties *)

(** ** The builder *)

Section BuilderInvariants.
Context `{Runtime}.
Implicit Types (self : DMLManager.t) (t : trace) (r : request).

(** The two ways [execute_dml] ends. *)
Lemma execute_dml_cases self dml t :
  (exists text,
     run_sql dml = inl text /\
     DMLManager.execute_dml self dml t =
     (Raise (DMLException ("Error executing DML: " ++ text) "EXECUTE" dml),
      (t ++ [EvCursor; EvExecute dml])%list)) \/
  (exists rows n,
     run_sql dml = inr (rows, n) /\
     DMLManager.execute_dml self dml t =
     (Return {| success := true; message := "DML operation executed successfully";
                results := rows; rows_affected := n |},
      (t ++ [EvCursor; EvExecute dml; EvFetchall])%list)).
Proof.
  unfold DMLManager.execute_dml, bind, emit, raise, ret.
  destruct (run_sql dml) as [text|[rows n]] eqn:Hrun; [left|right];
    repeat eexists; simpl; rewrite <- ?app_assoc; reflexivity.
Qed.

(** An iteration of a loop of [merge_data] raises nothing but the mismatch
    failure, which names the target table, or a [KeyError]. *)
Lemma matched_fragment_raises (target_table : string) (a : action_dict) (e : exn) :
  DMLManager.matched_fragment target_table a = Raise e ->
  (exists msg op, e = DMLException msg op target_table) \/ (exists key, e = KeyError key).
Proof.
  unfold DMLManager.matched_fragment.
  destruct a as [[tag|] [columns|] [values|]]; simpl;
    try destruct (String.eqb tag "UPDATE"); try destruct (String.eqb tag "DELETE");
    simpl; try destruct (negb (length columns =? length values)%nat);
    intros [= <-]; eauto.
Qed.

Lemma not_matched_fragment_raises (target_table : string) (a : action_dict) (e : exn) :
  DMLManager.not_matched_fragment target_table a = Raise e ->
  (exists msg op, e = DMLException msg op target_table) \/ (exists key, e = KeyError key).
Proof.
  unfold DMLManager.not_matched_fragment.
  destruct a as [[tag|] [columns|] [values|]]; simpl;
    try destruct (String.eqb tag "INSERT");
    simpl; try destruct (negb (length columns =? length values)%nat);
    intros [= <-]; eauto.
Qed.

Lemma append_each_raises (fragment : action_dict -> outcome string)
    (P : exn -> Prop) (actions : list action_dict) :
  (forall a e, fragment a = Raise e -> P e) ->
  forall dml e, append_each fragment actions dml = Raise e -> P e.
Proof.
  intros Hfrag. induction actions as [|a actions IH]; intros dml e; simpl.
  - discriminate.
  - destruct (fragment a) as [f|e'] eqn:Ha; simpl.
    + apply IH.
    + intros [= <-]. eapply Hfrag, Ha.
Qed.

Lemma merge_sql_raises (target_table source_table merge_condition : string)
    (match_actions : list action_dict)
    (not_match_actions : option (list action_dict)) (e : exn) :
  DMLManager.merge_sql target_table source_table merge_condition
    match_actions not_match_actions = Raise e ->
  (exists msg op, e = DMLException msg op target_table) \/ (exists key, e = KeyError key).
Proof.
  unfold DMLManager.merge_sql.
  destruct (append_each (DMLManager.matched_fragment target_table) match_actions _)
    as [dml|e'] eqn:Hm; simpl.
  - destruct not_match_actions as [[|a actions]|]; try discriminate.
    intros Hn.
    eapply (append_each_raises _
              (fun e => (exists msg op, e = DMLException msg op target_table) \/
                        (exists key, e = KeyError key))); [|exact Hn].
    intros a' e'. apply not_matched_fragment_raises.
  - intros [= <-].
    eapply (append_each_raises _
              (fun e => (exists msg op, e = DMLException msg op target_table) \/
                        (exists key, e = KeyError key))); [|exact Hm].
    intros a' e. apply matched_fragment_raises.
Qed.

(** An operation either fails at once, leaving the trace as it was, or hands
    one statement to [execute_dml]. *)
Lemma perform_shape self r t :
  (exists e,
     perform self r t = (Raise e, t) /\
     ((exists msg op, e = DMLException msg op (request_table r)) \/
      (exists key, e = KeyError key))) \/
  (exists sql, perform self r t = DMLManager.execute_dml self sql t).
Proof.
  destruct r; simpl;
    unfold DMLManager.select_data, DMLManager.insert_data, DMLManager.update_data,
      DMLManager.delete_data, DMLManager.merge_data;
    destruct (negb (length (split "." _) =? 3)%nat); eauto 8.
  - destruct (negb (length columns =? length values)%nat); eauto 8.
  - destruct (negb (length set_columns =? length set_values)%nat); eauto 8.
  - destruct (negb (nonempty where_clause) || String.eqb (strip where_clause) "");
      eauto 8.
  - unfold bind, lift.
    destruct (DMLManager.merge_sql target_table source_table merge_condition
                match_actions not_match_actions) as [dml|e] eqn:Hsql; eauto.
    left. exists e. split; [reflexivity|]. eapply merge_sql_raises, Hsql.
Qed.

(** X1.  Whatever the request, an operation of the builder ends in one of
    three ways: it fails before anything is sent, with the trace untouched,
    and the failure is a [DMLException] naming the table of the request (or,
    for MERGE only, the [KeyError] of an action without its keys); or one
    statement is sent and the driver refuses it, which gives a
    [DMLException] of the operation EXECUTE carrying the statement; or one
    statement is sent and fetched, and the result is the success record
    with the rows and the row count of the driver.  No operation sends two
    statements, and none returns a result whose [success] is false. *)
Theorem perform_outcomes self r t :
  (exists e,
     perform self r t = (Raise e, t) /\
     ((exists msg op, e = DMLException msg op (request_table r)) \/
      (exists key, e = KeyError key /\
                   match r with Merge _ _ _ _ _ => True | _ => False end))) \/
  (exists sql text,
     run_sql sql = inl text /\
     perform self r t =
     (Raise (DMLException ("Error executing DML: " ++ text) "EXECUTE" sql),
      (t ++ [EvCursor; EvExecute sql])%list)) \/
  (exists sql rows n,
     run_sql sql = inr (rows, n) /\
     perform self r t =
     (Return {| success := true; message := "DML operation executed successfully";
                results := rows; rows_affected := n |},
      (t ++ [EvCursor; EvExecute sql; EvFetchall])%list)).
Proof.
  destruct (perform_shape self r t) as [(e & He & Hkind)|(sql & Hsql)].
  - left. exists e. split; [exact He|].
    destruct Hkind as [Hdml|(key & ->)]; [now left|].
    destruct r; try (right; eauto; fail); exfalso; simpl in He;
      unfold DMLManager.select_data, DMLManager.insert_data, DMLManager.update_data,
        DMLManager.delete_data in He;
      repeat match type of He with
             | context [if ?b then _ else _] => destruct b
             end;
      try discriminate;
      match type of He with
      | DMLManager.execute_dml ?s ?d ?t = _ =>
          destruct (execute_dml_cases s d t) as [(? & _ & Hc)|(? & ? & _ & Hc)];
          rewrite Hc in He; discriminate
      end.
  - right. rewrite Hsql.
    destruct (execute_dml_cases self sql t) as [(text & Hrun & ->)|(rows & n & Hrun & ->)];
      [left|right]; eauto 8.
Qed.

End BuilderInvariants.

Section BuilderStatements.
Context `{Runtime}.
Implicit Types (self : DMLManager.t) (t : trace) (r : request).

(** [split] gives one more part than there are separators. *)
Lemma split_length (sep : ascii) (s : string) :
  length (split sep s) = S (count_char sep s).
Proof.
  induction s as [|c s IH]; simpl; [reflexivity|].
  destruct (Ascii.eqb c sep); simpl; [now rewrite IH|].
  destruct (split sep s) as [|p ps]; [discriminate | exact IH].
Qed.

(** X2.  The check of the table name counts the dots and nothing else.  A
    request on a name that does not hold exactly two dots fails at once,
    whatever the operation, with a failure naming the table; a name with
    exactly two dots passes, even when some of its three parts are empty:
    SELECT on such a name is sent as it stands. *)
Theorem qualification_counts_dots self r t :
  (count_char "." (request_table r) <> 2%nat ->
   exists msg op,
     perform self r t = (Raise (DMLException msg op (request_table r)), t)) /\
  (count_char "." (request_table r) = 2%nat ->
   forall columns where_clause order_by limit offset,
     DMLManager.select_data self (request_table r) columns where_clause order_by
       limit offset t =
     DMLManager.execute_dml self
       (select_statement (request_table r) columns where_clause order_by limit offset) t).
Proof.
  split.
  - intros Hdots.
    assert (Hparts : length (split "." (request_table r)) <> 3%nat)
      by (rewrite split_length; lia).
    destruct (unqualified_table_rejected self (request_table r) t Hparts)
      as (Hsel & Hins & Hupd & Hdel & Hmerge).
    destruct r; simpl in *.
    + destruct (Hsel columns where_clause order_by limit offset) as (msg & ->). eauto.
    + destruct (Hins columns values) as (msg & ->). eauto.
    + destruct (Hupd set_columns set_values where_clause) as (msg & ->). eauto.
    + destruct (Hdel where_clause) as (msg & ->). eauto.
    + destruct (Hmerge source_table merge_condition match_actions not_match_actions)
        as (msg & ->). eauto.
  - intros Hdots columns where_clause order_by limit offset.
    assert (Hparts : length (split "." (request_table r)) = 3%nat)
      by (rewrite split_length; lia).
    unfold DMLManager.select_data. rewrite (qualified_check _ Hparts).
    cbv beta iota zeta. f_equal. unfold select_statement.
    destruct columns as [[|c cs]|]; destruct where_clause as [w|];
      try destruct (nonempty w); destruct order_by as [[|o os]|];
      destruct limit, offset; cbv beta iota zeta;
      rewrite ?append_assoc, ?append_nil_r; reflexivity.
Qed.

(** X3.  UPDATE has no guard on its WHERE clause.  With a table name of
    three parts and as many values as columns, [update_data] sends its
    statement for every WHERE text, an empty or blank one included, where
    [delete_data] on the same table and the same text fails without sending
    anything.  Blank is what [strip] empties, the white space outside the
    ASCII range included. *)
Theorem update_data_blank_where self (table_name : string)
    (set_columns : list string) (set_values : list value) (where_clause : string) t :
  length (split "." table_name) = 3%nat ->
  length set_columns = length set_values ->
  whitespace_only where_clause = true ->
  executed (snd (DMLManager.update_data self table_name set_columns set_values
                   where_clause t)) =
    (executed t ++
     [(LF ++ IND8 ++ "UPDATE " ++ table_name ++ LF ++
       IND8 ++ "SET " ++
         join ", " (zip_with DMLManager.format_set_clause set_columns set_values) ++ LF ++
       IND8 ++ "WHERE " ++ where_clause ++ LF ++ IND8)%string])%list /\
  DMLManager.delete_data self table_name where_clause t =
    (Raise (DMLException DMLManager.WHERE_REQUIRED "DELETE" table_name), t).
Proof.
  intros Hparts Hlen Hblank. split.
  - unfold DMLManager.update_data.
    rewrite (qualified_check _ Hparts), Hlen, Nat.eqb_refl.
    cbv beta iota zeta. cbn [negb]. apply execute_dml_executed.
  - unfold DMLManager.delete_data.
    now rewrite (qualified_check _ Hparts), (blank_check _ Hblank).
Qed.

(** A loop skips the actions that append the empty text. *)
Lemma append_each_filter (fragment : action_dict -> outcome string)
    (keep : action_dict -> bool) (actions : list action_dict) :
  (forall a, keep a = false -> fragment a = Return "") ->
  forall dml,
    append_each fragment (List.filter keep actions) dml =
    append_each fragment actions dml.
Proof.
  intros Hskip. induction actions as [|a actions IH]; intros dml; simpl; [reflexivity|].
  destruct (keep a) eqn:Ha; simpl.
  - destruct (fragment a); simpl; [apply IH | reflexivity].
  - rewrite (Hskip a Ha). simpl. rewrite append_nil_r. apply IH.
Qed.

Lemma matched_fragment_other_tag (target_table : string) (a : action_dict) :
  matched_tag a = false -> DMLManager.matched_fragment target_table a = Return "".
Proof.
  unfold matched_tag, DMLManager.matched_fragment.
  destruct (act_action a) as [tag|]; [|discriminate]. simpl.
  intros [-> ->]%orb_false_elim. reflexivity.
Qed.

Lemma not_matched_fragment_other_tag (target_table : string) (a : action_dict) :
  not_matched_tag a = false ->
  DMLManager.not_matched_fragment target_table a = Return "".
Proof.
  unfold not_matched_tag, DMLManager.not_matched_fragment.
  destruct (act_action a) as [tag|]; [|discriminate]. simpl.
  now intros ->.
Qed.

(** X4.  An action whose tag is not one its loop acts on (anything but
    UPDATE and DELETE among the matched actions, anything but INSERT among
    the others) is skipped without a failure, whatever its columns and
    values: removing all such actions from a MERGE request changes nothing
    in what [merge_data] does. *)
Theorem merge_data_skips_other_tags self
    (target_table source_table merge_condition : string)
    (match_actions : list action_dict)
    (not_match_actions : option (list action_dict)) t :
  DMLManager.merge_data self target_table source_table merge_condition
    (List.filter matched_tag match_actions)
    (option_map (List.filter not_matched_tag) not_match_actions) t =
  DMLManager.merge_data self target_table source_table merge_condition
    match_actions not_match_actions t.
Proof.
  unfold DMLManager.merge_data.
  destruct (negb (length (split "." target_table) =? 3)%nat); [reflexivity|].
  unfold bind, lift. f_equal.
  replace (DMLManager.merge_sql target_table source_table merge_condition
             (List.filter matched_tag match_actions)
             (option_map (List.filter not_matched_tag) not_match_actions))
    with (DMLManager.merge_sql target_table source_table merge_condition
            match_actions not_match_actions); [reflexivity|].
  unfold DMLManager.merge_sql.
  rewrite (append_each_filter _ matched_tag match_actions
             (matched_fragment_other_tag target_table)).
  destruct (append_each (DMLManager.matched_fragment target_table) match_actions _)
    as [dml|e]; simpl; [|reflexivity].
  destruct not_match_actions as [actions|]; simpl; [|reflexivity].
  pose proof (append_each_filter _ not_matched_tag actions
                (not_matched_fragment_other_tag target_table) dml) as Hfilter.
  destruct actions as [|a actions]; [reflexivity|].
  rewrite <- Hfilter.
  now destruct (List.filter not_matched_tag (a :: actions)).
Qed.

(** A loop whose iterations all append: the texts follow one another in the
    order of the actions. *)
Lemma append_each_concat (fragment : action_dict -> outcome string)
    (actions : list action_dict) (fragments : list string) :
  Forall2 (fun a f => fragment a = Return f) actions fragments ->
  forall dml,
    append_each fragment actions dml = Return (dml ++ String.concat "" fragments).
Proof.
  induction 1 as [|a f actions fragments Ha _ IH]; intros dml; simpl.
  - now rewrite append_nil_r.
  - rewrite Ha. simpl. rewrite IH, append_assoc. f_equal. f_equal.
    destruct fragments; simpl; [now rewrite append_nil_r | reflexivity].
Qed.

(** X5.  When every action gives its clause, the MERGE statement is the head
    followed by the clauses of the matched actions, in the order of the
    list, and then by the clauses of the not-matched actions, in the order
    of theirs: no clause of the second list ever comes before a clause of
    the first. *)
Theorem merge_sql_clause_order (target_table source_table merge_condition : string)
    (match_actions not_match_actions : list action_dict)
    (matched not_matched : list string) :
  Forall2 (fun a f => DMLManager.matched_fragment target_table a = Return f)
    match_actions matched ->
  Forall2 (fun a f => DMLManager.not_matched_fragment target_table a = Return f)
    not_match_actions not_matched ->
  DMLManager.merge_sql target_table source_table merge_condition
    match_actions (Some not_match_actions) =
  Return (DMLManager.merge_head target_table source_table merge_condition ++
          String.concat "" matched ++ String.concat "" not_matched).
Proof.
  intros Hm Hn. unfold DMLManager.merge_sql.
  rewrite (append_each_concat _ _ _ Hm). cbn [obind].
  destruct Hn as [|a f actions fragments Ha Hrest].
  - cbn [String.concat]. now rewrite append_nil_r.
  - assert (Hall : Forall2
                     (fun a f => DMLManager.not_matched_fragment target_table a = Return f)
                     (a :: actions) (f :: fragments)) by (constructor; assumption).
    rewrite (append_each_concat _ _ _ Hall).
    now rewrite append_assoc.
Qed.

End BuilderStatements.

(** ** Connections *)

Section Connections.
Context `{Runtime}.
Implicit Types (t : trace).

(** The four ways [get_snowflake_connection] ends. *)
Lemma get_snowflake_connection_cases (account_identifier username password : option string) t :
  (exists e,
     get_snowflake_connection account_identifier username password t = (Raise e, t) /\
     ((exists msg, e = ConnectionException msg) \/
      (exists missing, e = MissingArgumentsException missing))) \/
  (exists a u p text,
     connect_error a u p = Some text /\
     get_snowflake_connection account_identifier username password t =
     (Raise (ConnectionException ("Failed to establish Snowflake connection: " ++ text)),
      (t ++ [EvConnect a u p])%list)) \/
  (exists a u p,
     connect_error a u p = None /\
     get_snowflake_connection account_identifier username password t =
     (Return {| conn_account := a; conn_user := u; conn_password := p |},
      (t ++ [EvConnect a u p])%list)).
Proof.
  unfold get_snowflake_connection.
  destruct connector_installed; cbn [negb]; [|left; eauto 6].
  generalize (py_or (py_or password (getenv "SNOWFLAKE_PAT"))
                     (getenv "SNOWFLAKE_PASSWORD")).
  generalize (py_or username (getenv "SNOWFLAKE_USER")).
  generalize (py_or account_identifier (getenv "SNOWFLAKE_ACCOUNT")).
  intros a u p.
  destruct (truthy_opt a), (truthy_opt u), (truthy_opt p); cbn [app];
    try (left; eexists; split; [reflexivity|]; right; eauto; fail).
  unfold bind, emit, raise, ret.
  destruct (connect_error (default "" a) (default "" u) (default "" p)) eqn:Hc;
    right; [left|right]; eauto 8.
Qed.

(** X6.  The constructor of the builder ends in one of three ways: it fails
    before any connection is opened, it fails after the one attempt to
    connect was refused, or it returns a builder holding the connection just
    opened.  It never calls [connect] twice, and whatever goes wrong is
    raised as a [DMLException] of the operation CONNECTION with an empty
    table name. *)
Theorem init_outcomes (account_identifier username password : option string) t :
  (exists msg,
     DMLManager.init account_identifier username password t =
     (Raise (DMLException msg "CONNECTION" ""), t)) \/
  (exists msg a u p text,
     connect_error a u p = Some text /\
     DMLManager.init account_identifier username password t =
     (Raise (DMLException msg "CONNECTION" ""), (t ++ [EvConnect a u p])%list)) \/
  (exists a u p,
     connect_error a u p = None /\
     DMLManager.init account_identifier username password t =
     (Return {| DMLManager.connection :=
                  {| conn_account := a; conn_user := u; conn_password := p |} |},
      (t ++ [EvConnect a u p])%list)).
Proof.
  unfold DMLManager.init, try_except, bind, raise, ret.
  destruct (get_snowflake_connection_cases account_identifier username password t)
    as [(e & -> & _)|[(a & u & p & text & Hc & ->)|(a & u & p & Hc & ->)]].
  - left. eauto.
  - right. left. eauto 8.
  - right. right. eauto 8.
Qed.

Lemma first_given_nonempty (sources : list (option string)) (s : string) :
  first_given sources = Some s -> nonempty s = true.
Proof.
  induction sources as [|source sources IH]; simpl; [discriminate|].
  destruct (truthy_opt source) eqn:Hs; [|exact IH].
  intros ->. exact Hs.
Qed.

(** The credentials of a tool are the first ones given by the environment. *)
Lemma get_snowflake_credentials_first_given :
  DMLTools.get_snowflake_credentials =
  match first_given [getenv "SNOWFLAKE_ACCOUNT"],
        first_given [getenv "SNOWFLAKE_USER"],
        first_given [getenv "SNOWFLAKE_PAT"; getenv "SNOWFLAKE_PASSWORD"] with
  | Some a, Some u, Some p => Return (a, u, p)
  | _, _, _ =>
      Raise (ValidationException DMLTools.MISSING_CREDENTIALS "credentials" "environment")
  end.
Proof.
  unfold DMLTools.get_snowflake_credentials.
  rewrite <- !py_or_first_given.
  replace (first_given [getenv "SNOWFLAKE_ACCOUNT"])
    with (if truthy_opt (getenv "SNOWFLAKE_ACCOUNT")
          then getenv "SNOWFLAKE_ACCOUNT" else None)
    by (simpl; now destruct (truthy_opt _)).
  replace (first_given [getenv "SNOWFLAKE_USER"])
    with (if truthy_opt (getenv "SNOWFLAKE_USER")
          then getenv "SNOWFLAKE_USER" else None)
    by (simpl; now destruct (truthy_opt _)).
  generalize (py_or (getenv "SNOWFLAKE_PAT") (getenv "SNOWFLAKE_PASSWORD")),
    (getenv "SNOWFLAKE_USER"), (getenv "SNOWFLAKE_ACCOUNT").
  intros p u a.
  destruct a as [a|], u as [u|], p as [p|]; cbn [truthy_opt];
    repeat match goal with
           | |- context [nonempty ?x] => destruct (nonempty x)
           end;
    reflexivity.
Qed.

(** With the three credentials given as arguments, the environment is not
    consulted. *)
Lemma get_snowflake_connection_explicit (a u p : string) t :
  connector_installed = true ->
  nonempty a = true -> nonempty u = true -> nonempty p = true ->
  get_snowflake_connection (Some a) (Some u) (Some p) t =
  (match connect_error a u p with
   | Some text =>
       Raise (ConnectionException ("Failed to establish Snowflake connection: " ++ text))
   | None => Return {| conn_account := a; conn_user := u; conn_password := p |}
   end, (t ++ [EvConnect a u p])%list).
Proof.
  intros Hinst Ha Hu Hp.
  unfold get_snowflake_connection, py_or. rewrite Hinst.
  cbn [negb truthy_opt].
  repeat (rewrite ?Ha, ?Hu, ?Hp; cbn [truthy_opt app default]).
  unfold bind, emit, raise, ret, id.
  now destruct (connect_error a u p).
Qed.

(** X7.  The tools take the credentials from the environment alone, the
    secret from SNOWFLAKE_PAT and only then from SNOWFLAKE_PASSWORD.  With
    the three of them set, the builder of a tool connects with exactly these
    values; with any of them unset or empty, no connection is attempted and
    the failure is the same fixed message, whichever is missing. *)
Theorem new_manager_uses_environment t :
  connector_installed = true ->
  match first_given [getenv "SNOWFLAKE_ACCOUNT"],
        first_given [getenv "SNOWFLAKE_USER"],
        first_given [getenv "SNOWFLAKE_PAT"; getenv "SNOWFLAKE_PASSWORD"] with
  | Some a, Some u, Some p =>
      snd (DMLTools.new_manager t) = (t ++ [EvConnect a u p])%list /\
      (connect_error a u p = None ->
       fst (DMLTools.new_manager t) =
       Return {| DMLManager.connection :=
                   {| conn_account := a; conn_user := u; conn_password := p |} |})
  | _, _, _ =>
      DMLTools.new_manager t =
      (Raise (ValidationException DMLTools.MISSING_CREDENTIALS "credentials" "environment"),
       t)
  end.
Proof.
  intros Hinst. unfold DMLTools.new_manager.
  rewrite get_snowflake_credentials_first_given.
  destruct (first_given [getenv "SNOWFLAKE_ACCOUNT"]) as [a|] eqn:Ha; [|reflexivity].
  destruct (first_given [getenv "SNOWFLAKE_USER"]) as [u|] eqn:Hu; [|reflexivity].
  destruct (first_given [getenv "SNOWFLAKE_PAT"; getenv "SNOWFLAKE_PASSWORD"])
    as [p|] eqn:Hp; [|reflexivity].
  apply first_given_nonempty in Ha, Hu, Hp.
  unfold bind, lift. cbv beta iota zeta.
  unfold DMLManager.init, try_except, bind, raise, ret.
  rewrite (get_snowflake_connection_explicit a u p t Hinst Ha Hu Hp).
  destruct (connect_error a u p); split; try reflexivity; intros; congruence.
Qed.

End Connections.

(** ** The tools *)

Section ToolSessions.
Context `{Runtime}.
Variable container : Type.
Variable json_dumps : container -> string.
Variable json_dumps_text : string -> string.
Implicit Types (t : trace).

(** The three ways the builder of a tool comes to be, or not. *)
Lemma new_manager_cases t :
  (exists e, DMLTools.new_manager t = (Raise e, t)) \/
  (exists e a u p,
     DMLTools.new_manager t = (Raise e, (t ++ [EvConnect a u p])%list)) \/
  (exists dml_manager a u p,
     DMLTools.new_manager t = (Return dml_manager, (t ++ [EvConnect a u p])%list)).
Proof.
  unfold DMLTools.new_manager, bind, lift.
  destruct DMLTools.get_snowflake_credentials as [[[a u] p]|e]; [|left; eauto].
  unfold DMLManager.init, try_except, bind, raise, ret.
  destruct (get_snowflake_connection_cases (Some a) (Some u) (Some p) t)
    as [(e & -> & _)|[(a' & u' & p' & text & _ & ->)|(a' & u' & p' & _ & ->)]];
    eauto 10.
Qed.

(** One step of the symbolic run of a tool. *)
Ltac tool_step :=
  match goal with
  | |- context [DMLTools.new_manager ?t0] =>
      destruct (new_manager_cases t0)
        as [(? & ->)|[(? & ? & ? & ? & ->)|(? & ? & ? & ? & ->)]]
  | |- context [DMLManager.insert_data ?m ?a ?b ?c ?t0] =>
      change (DMLManager.insert_data m a b c t0) with (perform m (Insert a b c) t0)
  | |- context [DMLManager.select_data ?m ?a ?b ?c ?d ?e ?f ?t0] =>
      change (DMLManager.select_data m a b c d e f t0)
        with (perform m (Select a b c d e f) t0)
  | |- context [DMLManager.delete_data ?m ?a ?b ?t0] =>
      change (DMLManager.delete_data m a b t0) with (perform m (Delete a b) t0)
  | |- context [DMLManager.merge_data ?m ?a ?b ?c ?d ?e ?t0] =>
      change (DMLManager.merge_data m a b c d e t0) with (perform m (Merge a b c d e) t0)
  | |- context [perform ?m ?r ?t0] =>
      destruct (perform_shape m r t0) as [(? & -> & _)|(? & ->)]
  | |- context [DMLManager.execute_dml ?m ?d ?t0] =>
      destruct (execute_dml_cases m d t0) as [(? & _ & ->)|(? & ? & _ & ->)]
  | |- context [SnowflakeResponse.parse_dml_response ?x] =>
      destruct (SnowflakeResponse.parse_dml_response x)
  | |- context [DMLResponse.new ?x] => destruct (DMLResponse.new x)
  | |- context [DMLTools.summary ?p ?x] => destruct (DMLTools.summary p x)
  | |- context [if ?b then _ else _] => destruct b
  | |- context [match ?x with [] => _ | _ :: _ => _ end] => is_var x; destruct x
  | |- context [match ?x with Some _ => _ | None => _ end] => is_var x; destruct x
  end;
  cbv beta iota zeta; cbn [success message results rows_affected negb].

(** The end of a run: the events added, and the kind of session. *)
Ltac tool_done :=
  cbn [fst snd]; rewrite <- ?app_assoc; cbn [app];
  eexists; split; [reflexivity|];
  first
    [ eapply NotConnected; [reflexivity | eexists; reflexivity]
    | eapply Connected; [reflexivity | eexists; reflexivity]
    | eapply Refused; [reflexivity | eexists; reflexivity]
    | eapply Fetched;
      [reflexivity | first [left; eexists; reflexivity | right; eexists; reflexivity]] ].

(** X8.  Every invocation of a DML tool is one session with the warehouse,
    whatever its arguments, the environment and the answers of the driver:
    at most one connection is opened, at most one statement is sent on it,
    and nothing is fetched that was not sent.  A tool never lets through an
    exception other than [ToolError]; it returns a text only after a
    statement was sent and fetched. *)
Theorem invoke_session (i : invocation container) t :
  exists l,
    snd (invoke container json_dumps json_dumps_text i t) = (t ++ l)%list /\
    session (fst (invoke container json_dumps json_dumps_text i t)) l.
Proof.
  destruct i; cbn [invoke];
    unfold DMLTools.insert_data, DMLTools.query_data, DMLTools.update_data,
      DMLTools.delete_data, DMLTools.execute_dml_statement, DMLTools.merge_data,
      try_except, bind, emit, DMLTools.raise_if, raise, ret, lift;
    repeat tool_step; tool_done.
Qed.


(** Without credentials in the environment no builder is made. *)
Lemma new_manager_missing t :
  first_given [getenv "SNOWFLAKE_ACCOUNT"] = None \/
  first_given [getenv "SNOWFLAKE_USER"] = None \/
  first_given [getenv "SNOWFLAKE_PAT"; getenv "SNOWFLAKE_PASSWORD"] = None ->
  DMLTools.new_manager t =
  (Raise (ValidationException DMLTools.MISSING_CREDENTIALS "credentials" "environment"), t).
Proof.
  intros Hmissing. unfold DMLTools.new_manager, bind, lift.
  rewrite get_snowflake_credentials_first_given.
  destruct Hmissing as [-> |[-> | ->]]; [reflexivity| |].
  - now destruct (first_given [getenv "SNOWFLAKE_ACCOUNT"]).
  - now destruct (first_given [getenv "SNOWFLAKE_ACCOUNT"]),
                 (first_given [getenv "SNOWFLAKE_USER"]).
Qed.

(** X9.  When the environment lacks one of the three credentials, every DML
    tool fails with a [ToolError] and adds no event of the connection:
    nothing is opened and nothing is sent, whatever the arguments. *)
Theorem invoke_without_credentials (i : invocation container) t :
  first_given [getenv "SNOWFLAKE_ACCOUNT"] = None \/
  first_given [getenv "SNOWFLAKE_USER"] = None \/
  first_given [getenv "SNOWFLAKE_PAT"; getenv "SNOWFLAKE_PASSWORD"] = None ->
  exists msg l,
    invoke container json_dumps json_dumps_text i t =
    (Raise (ToolError msg), (t ++ l)%list) /\
    connection_events l = [].
Proof.
  intros Hmissing.
  destruct i; cbn [invoke];
    unfold DMLTools.insert_data, DMLTools.query_data, DMLTools.update_data,
      DMLTools.delete_data, DMLTools.execute_dml_statement, DMLTools.merge_data,
      try_except, bind, emit, DMLTools.raise_if, raise, ret, lift;
    repeat first
      [ rewrite (new_manager_missing _ Hmissing); cbv beta iota zeta;
        cbn [is_ValidationException is_SnowflakeException]
      | tool_step ];
    rewrite <- ?app_assoc; cbn [app];
    eexists _, _; (split; [reflexivity | reflexivity]).
Qed.

(** A table name of three parts is not blank. *)
Lemma isspace_no_dot (c : ascii) : isspace c = true -> Ascii.eqb c "." = false.
Proof.
  intros Hc. destruct (Ascii.eqb c ".") eqn:Hdot; [|reflexivity].
  apply Ascii.eqb_eq in Hdot. subst c. discriminate.
Qed.

(** The bytes of a character of several bytes are above the ASCII range. *)
Lemma continuation_no_dot (c : ascii) :
  continuation c = true -> Ascii.eqb c "." = false.
Proof.
  intros Hc. destruct (Ascii.eqb c ".") eqn:Hdot; [|reflexivity].
  apply Ascii.eqb_eq in Hdot. subst c. discriminate.
Qed.

Lemma lead_no_dot (c : ascii) (lo hi : N) :
  (46 < lo)%N ->
  ((lo <=? N_of_ascii c) && (N_of_ascii c <=? hi))%N = true ->
  Ascii.eqb c "." = false.
Proof.
  intros Hlo [Hc _]%andb_prop. apply N.leb_le in Hc.
  destruct (Ascii.eqb c ".") eqn:Hdot; [|reflexivity].
  apply Ascii.eqb_eq in Hdot. subst c. simpl in Hc. lia.
Qed.

Lemma isspace2_no_dot (c1 c2 : ascii) :
  isspace2 c1 c2 = true -> Ascii.eqb c1 "." = false /\ Ascii.eqb c2 "." = false.
Proof.
  unfold isspace2. intros [[H1 H2]%andb_prop _]%andb_prop. split.
  - now apply (lead_no_dot c1 194 223).
  - now apply continuation_no_dot.
Qed.

Lemma isspace3_no_dot (c1 c2 c3 : ascii) :
  isspace3 c1 c2 c3 = true ->
  Ascii.eqb c1 "." = false /\ Ascii.eqb c2 "." = false /\ Ascii.eqb c3 "." = false.
Proof.
  unfold isspace3. intros [[[H1 H2]%andb_prop H3]%andb_prop _]%andb_prop.
  split; [|split].
  - now apply (lead_no_dot c1 224 239).
  - now apply continuation_no_dot.
  - now apply continuation_no_dot.
Qed.

Lemma whitespace_only_no_dot (s : string) :
  whitespace_only s = true -> count_char "." s = 0%nat.
Proof.
  induction s as [s IH] using string_length_ind.
  destruct s as [|c1 r1]; [reflexivity|]. cbn [whitespace_only].
  destruct (isspace c1) eqn:H1.
  - intros Hs. cbn [count_char]. rewrite (isspace_no_dot _ H1).
    apply IH; [simpl; lia | exact Hs].
  - destruct r1 as [|c2 r2]; [discriminate|].
    destruct (isspace2 c1 c2) eqn:H2.
    + intros Hs. destruct (isspace2_no_dot _ _ H2) as [Hd1 Hd2].
      cbn [count_char]. rewrite Hd1, Hd2. apply IH; [simpl; lia | exact Hs].
    + destruct r2 as [|c3 r3]; [discriminate|].
      intros [H3 Hs]%andb_prop.
      destruct (isspace3_no_dot _ _ _ H3) as (Hd1 & Hd2 & Hd3).
      cbn [count_char]. rewrite Hd1, Hd2, Hd3. apply IH; [simpl; lia | exact Hs].
Qed.

Lemma qualified_nonblank (table_name : string) :
  length (split "." table_name) = 3%nat -> whitespace_only table_name = false.
Proof.
  rewrite split_length. intros Hdots.
  destruct (whitespace_only table_name) eqn:Hw; [|reflexivity].
  apply whitespace_only_no_dot in Hw. lia.
Qed.

(** The other spelling of the test for a blank text. *)
Lemma nonblank_check_eqb (s : string) :
  whitespace_only s = false ->
  negb (nonempty s) || String.eqb (strip s) "" = false.
Proof.
  intros Hs. pose proof (nonblank_check s Hs) as Hc.
  unfold nonempty in Hc |- *. rewrite !negb_involutive in Hc.
  rewrite negb_involutive. exact Hc.
Qed.

Lemma blank_check_nonempty (s : string) :
  whitespace_only s = true ->
  negb (nonempty s) || negb (nonempty (strip s)) = true.
Proof.
  intros Hs. rewrite (strip_whitespace_only _ Hs). apply orb_true_r.
Qed.

(** What SELECT sends. *)
Lemma select_data_sends (self : DMLManager.t) (table_name : string)
    (columns : option (list string)) (where_clause : option string)
    (order_by : option (list string)) (limit offset : option Z) t :
  length (split "." table_name) = 3%nat ->
  DMLManager.select_data self table_name columns where_clause order_by limit offset t =
  DMLManager.execute_dml self
    (select_statement table_name columns where_clause order_by limit offset) t.
Proof.
  intros Hparts. unfold DMLManager.select_data. rewrite (qualified_check _ Hparts).
  cbv beta iota zeta. f_equal. unfold select_statement.
  destruct columns as [[|c cs]|]; destruct where_clause as [w|];
    try destruct (nonempty w); destruct order_by as [[|o os]|];
    destruct limit, offset; cbv beta iota zeta;
    rewrite ?append_assoc, ?append_nil_r; reflexivity.
Qed.

Section Ready.

(** The environment holds the credentials [a], [u] and [p], and the
    warehouse accepts them. *)
Variables a u p : string.
Hypothesis Hinstalled : connector_installed = true.
Hypothesis Haccount : first_given [getenv "SNOWFLAKE_ACCOUNT"] = Some a.
Hypothesis Huser : first_given [getenv "SNOWFLAKE_USER"] = Some u.
Hypothesis Hsecret :
  first_given [getenv "SNOWFLAKE_PAT"; getenv "SNOWFLAKE_PASSWORD"] = Some p.
Hypothesis Haccepted : connect_error a u p = None.

Lemma new_manager_ready t :
  DMLTools.new_manager t =
  (Return {| DMLManager.connection :=
               {| conn_account := a; conn_user := u; conn_password := p |} |},
   (t ++ [EvConnect a u p])%list).
Proof.
  unfold DMLTools.new_manager.
  rewrite get_snowflake_credentials_first_given, Haccount, Huser, Hsecret.
  unfold bind, lift. cbv beta iota zeta.
  unfold DMLManager.init, try_except, bind, raise, ret.
  rewrite (get_snowflake_connection_explicit a u p t Hinstalled
             (first_given_nonempty _ _ Haccount) (first_given_nonempty _ _ Huser)
             (first_given_nonempty _ _ Hsecret)).
  now rewrite Haccepted.
Qed.

(** The start of the run of a tool whose builder is made. *)
Ltac tool_ready :=
  unfold try_except, bind, emit, DMLTools.raise_if, raise, ret, lift;
  repeat match goal with
         | Hc : ?c = _ |- context [if ?c then _ else _] => rewrite Hc
         end;
  cbv beta iota zeta;
  rewrite new_manager_ready; cbv beta iota zeta.

(** X10.  The name of the table is checked only once the connection is
    open.  With credentials in the environment that the warehouse accepts, a
    query, a deletion, an insertion or a merge on a table name that does not
    have three parts opens the connection, sends nothing on it, and fails
    with the message of the builder, provided the request passes the guards
    that the tool runs before it connects: a WHERE text that is not blank
    for the deletion; a table name that is not blank and a dictionary that
    is not empty for the insertion; a target, a source and a condition that
    are not blank and at least one matched action for the merge.  Blank is
    what [strip] empties, the white space outside the ASCII range
    included. *)
Theorem unqualified_table_after_connect (table_name : string) t :
  length (split "." table_name) <> 3%nat ->
  (forall columns where_clause limit,
     let run := DMLTools.query_data json_dumps_text table_name columns where_clause
                  limit t in
     fst run = Raise (ToolError ("Data query failed: " ++ DMLManager.NOT_QUALIFIED)) /\
     connection_events (snd run) = (connection_events t ++ [EvConnect a u p])%list) /\
  (forall where_clause,
     whitespace_only where_clause = false ->
     let run := DMLTools.delete_data table_name where_clause t in
     fst run = Raise (ToolError ("Data deletion failed: " ++ DMLManager.NOT_QUALIFIED)) /\
     connection_events (snd run) = (connection_events t ++ [EvConnect a u p])%list) /\
  (forall data,
     whitespace_only table_name = false -> data <> [] ->
     let run := DMLTools.insert_data container json_dumps table_name data t in
     fst run = Raise (ToolError ("DML operation failed: " ++ DMLManager.NOT_QUALIFIED)) /\
     connection_events (snd run) = (connection_events t ++ [EvConnect a u p])%list) /\
  (forall source_table merge_condition action match_actions not_match_actions,
     whitespace_only table_name = false ->
     whitespace_only source_table = false ->
     whitespace_only merge_condition = false ->
     let run := DMLTools.merge_data table_name source_table merge_condition
                  (action :: match_actions) not_match_actions t in
     fst run =
       Raise (ToolError
                "MERGE operation failed: Target table name must be fully qualified as 'database.schema.table'") /\
     connection_events (snd run) = (connection_events t ++ [EvConnect a u p])%list).
Proof.
  intros Hparts. apply unqualified_check in Hparts.
  split; [|split; [|split]].
  - intros columns where_clause limit run. subst run.
    unfold DMLTools.query_data. tool_ready.
    unfold DMLManager.select_data. rewrite Hparts. cbv beta iota zeta.
    cbn [fst snd is_SnowflakeException exn_message]. split; [reflexivity|].
    now trace_simpl.
  - intros where_clause Hw run. subst run.
    apply nonblank_check_eqb in Hw.
    unfold DMLTools.delete_data. tool_ready.
    unfold DMLManager.delete_data. rewrite Hparts. cbv beta iota zeta.
    cbn [fst snd is_SnowflakeException exn_message]. split; [reflexivity|].
    now trace_simpl.
  - intros data Ht Hdata run. subst run.
    apply nonblank_check in Ht.
    destruct data as [|item data]; [congruence|].
    unfold DMLTools.insert_data. tool_ready.
    unfold DMLManager.insert_data. rewrite Hparts. cbv beta iota zeta.
    cbn [fst snd is_ValidationException is_DMLException exn_message].
    split; [reflexivity|]. now trace_simpl.
  - intros source_table merge_condition action match_actions not_match_actions
      Ht Hs Hc run. subst run.
    apply nonblank_check in Ht, Hs, Hc.
    unfold DMLTools.merge_data.
    unfold try_except, bind, emit, DMLTools.raise_if, raise, ret, lift.
    rewrite Ht, Hs, Hc. cbn [length Nat.eqb orb]. cbv beta iota zeta.
    rewrite new_manager_ready. cbv beta iota zeta.
    unfold DMLManager.merge_data. rewrite Hparts. cbv beta iota zeta.
    cbn [fst snd is_ValidationException is_DMLException exn_message].
    split; [reflexivity|]. now trace_simpl.
Qed.

(** The end of a run in which one statement was sent. *)
Ltac tool_sent :=
  repeat tool_step; cbn [fst snd];
  rewrite ?executed_app; cbn [executed omap list_omap app];
  rewrite ?app_nil_r; reflexivity.

(** X11.  With credentials in the environment that the warehouse accepts,
    the tool [execute_dml_statement] refuses an empty or blank statement
    before anything else happens, the only event being the report of the
    error; any other statement is sent to the warehouse exactly as it was
    given, and it is the only statement sent.  Blank is what [strip]
    empties, the white space outside the ASCII range included. *)
Theorem execute_dml_statement_verbatim (dml_statement : string) t :
  (whitespace_only dml_statement = true ->
   DMLTools.execute_dml_statement dml_statement t =
   (Raise (ToolError
      "Validation error: Validation Error in 'dml_statement': DML statement cannot be empty"),
    (t ++ [EvCtx Error
      "Validation error: Validation Error in 'dml_statement': DML statement cannot be empty"])%list)) /\
  (whitespace_only dml_statement = false ->
   executed (snd (DMLTools.execute_dml_statement dml_statement t)) =
   (executed t ++ [dml_statement])%list).
Proof.
  split.
  - intros Hblank. apply blank_check_nonempty in Hblank.
    unfold DMLTools.execute_dml_statement, try_except, bind, emit, DMLTools.raise_if,
      raise, ret, lift.
    rewrite Hblank. reflexivity.
  - intros Hs. apply nonblank_check in Hs.
    unfold DMLTools.execute_dml_statement. tool_ready. tool_sent.
Qed.

(** X12.  The tool [insert_data] takes the columns and the values from the
    same dictionary, in its order, so the two lists always agree in length:
    for a table name of three parts and a dictionary that is not empty, the
    INSERT statement is sent, with one formatted value for each column and
    the lists and dictionaries among the values written as quoted JSON
    texts. *)
Theorem insert_tool_statement (table_name : string)
    (data : list (string * (value + container))) t :
  length (split "." table_name) = 3%nat ->
  data <> [] ->
  length (map fst data) =
    length (DMLTools.dump_containers container json_dumps (map snd data)) /\
  executed (snd (DMLTools.insert_data container json_dumps table_name data t)) =
  (executed t ++
   [(LF ++ IND8 ++ "INSERT INTO " ++ table_name ++ " (" ++
       join ", " (map fst data) ++ ")" ++ LF ++
     IND8 ++ "VALUES (" ++
       join ", " (map DMLManager.format_value
                    (DMLTools.dump_containers container json_dumps (map snd data))) ++
       ")" ++ LF ++
     IND8)%string])%list.
Proof.
  intros Hparts Hdata.
  assert (Hlen : length (map fst data) =
                 length (DMLTools.dump_containers container json_dumps (map snd data)))
    by (unfold DMLTools.dump_containers; now rewrite !List.length_map).
  split; [exact Hlen|].
  pose proof (nonblank_check _ (qualified_nonblank _ Hparts)) as Ht.
  apply qualified_check in Hparts.
  destruct data as [|item data]; [congruence|].
  unfold DMLTools.insert_data. tool_ready.
  unfold DMLManager.insert_data. rewrite Hparts, Hlen, Nat.eqb_refl.
  cbv beta iota zeta. cbn [negb]. tool_sent.
Qed.

(** X13.  The tool [query_data] never asks for an order or an offset: for a
    table name of three parts the one statement it sends is the SELECT with
    the columns, the WHERE clause and the LIMIT of the request, and no
    ORDER BY and no OFFSET clause. *)
Theorem query_tool_statement (table_name : string) (columns : option (list string))
    (where_clause : option string) (limit : option Z) t :
  length (split "." table_name) = 3%nat ->
  executed (snd (DMLTools.query_data json_dumps_text table_name columns where_clause
                   limit t)) =
  (executed t ++ [select_statement table_name columns where_clause None limit None])%list.
Proof.
  intros Hparts.
  unfold DMLTools.query_data. tool_ready.
  rewrite (select_data_sends _ _ _ _ _ _ _ _ Hparts). tool_sent.
Qed.

(** X20.  The tool [update_data] checks nothing: whatever the table name,
    the SET text and the WHERE text, empty ones included, it sends the one
    statement [UPDATE <table> SET <set> WHERE <where>] made of them as they
    are. *)
Theorem update_tool_statement (table_name set_clause where_clause : string) t :
  executed (snd (DMLTools.update_data table_name set_clause where_clause t)) =
  (executed t ++
   [("UPDATE " ++ table_name ++ " SET " ++ set_clause ++ " WHERE " ++
     where_clause)%string])%list.
Proof.
  unfold DMLTools.update_data. tool_ready. tool_sent.
Qed.

(** X21.  With credentials in the environment that the warehouse accepts,
    the tool [delete_data], given a WHERE text that is not blank (not
    emptied by [strip], the white space outside the ASCII range included)
    and a table name of three parts, sends the one DELETE statement of the
    builder, with the WHERE text as it was given. *)
Theorem delete_tool_statement (table_name where_clause : string) t :
  length (split "." table_name) = 3%nat ->
  whitespace_only where_clause = false ->
  executed (snd (DMLTools.delete_data table_name where_clause t)) =
  (executed t ++
   [(LF ++ IND8 ++ "DELETE FROM " ++ table_name ++ LF ++
     IND8 ++ "WHERE " ++ where_clause ++ LF ++ IND8)%string])%list.
Proof.
  intros Hparts Hw. apply qualified_check in Hparts.
  apply nonblank_check_eqb in Hw.
  unfold DMLTools.delete_data. tool_ready.
  unfold DMLManager.delete_data. rewrite Hparts, Hw. cbv beta iota zeta. tool_sent.
Qed.

(** X22.  With credentials in the environment that the warehouse accepts,
    the tool [merge_data], given a source and a condition that are not blank
    (not emptied by [strip], the white space outside the ASCII range
    included), a target of three parts and at least one matched action,
    sends the one statement that the builder assembles from the actions,
    whenever that assembly does not fail. *)
Theorem merge_tool_statement (target_table source_table merge_condition : string)
    (action : action_dict) (match_actions : list action_dict)
    (not_match_actions : option (list action_dict)) (sql : string) t :
  length (split "." target_table) = 3%nat ->
  whitespace_only source_table = false ->
  whitespace_only merge_condition = false ->
  DMLManager.merge_sql target_table source_table merge_condition
    (action :: match_actions) not_match_actions = Return sql ->
  executed (snd (DMLTools.merge_data target_table source_table merge_condition
                   (action :: match_actions) not_match_actions t)) =
  (executed t ++ [sql])%list.
Proof.
  intros Hparts Hs Hc Hsql.
  pose proof (nonblank_check _ (qualified_nonblank _ Hparts)) as Ht.
  apply qualified_check in Hparts. apply nonblank_check in Hs, Hc.
  unfold DMLTools.merge_data.
  unfold try_except, bind, emit, DMLTools.raise_if, raise, ret, lift.
  rewrite Ht, Hs, Hc. cbn [length Nat.eqb orb]. cbv beta iota zeta.
  rewrite new_manager_ready. cbv beta iota zeta.
  unfold DMLManager.merge_data, bind, lift. rewrite Hparts, Hsql.
  cbv beta iota zeta. tool_sent.
Qed.

Section Accepting.

(** The validators accept the values of the type they stand for. *)
Hypothesis Hbool : forall b, validate_bool (PyVal (VBool b)) = Some b.
Hypothesis Hstr : forall s, validate_str (PyVal (VStr s)) = Some s.
Hypothesis Hint : forall n, validate_int (PyVal (VInt n)) = Some n.
Hypothesis Hlist : forall l, validate_str_list (PyList (map VStr l)) = Some l.

Lemma dml_response_of_raw (r : raw_result) :
  DMLResponse.new (raw_dict r) =
  Return {| DMLResponse.success := success r; DMLResponse.message := message r;
            DMLResponse.results := results r;
            DMLResponse.rows_affected := rows_affected r |}.
Proof.
  unfold DMLResponse.new, DMLResponse.field.
  rewrite raw_dict_success, raw_dict_message, raw_dict_results, raw_dict_rows_affected.
  now rewrite Hbool, Hstr, Hlist, Hint.
Qed.

(** X17.  What the executor returns always passes the normalizers.  With
    validators that accept the values of their own type, every raw result of
    [execute_dml] is normalized without failure into the DML envelope, field
    by field, and into the DDL envelope as well, which keeps the first three
    fields and ignores the row count. *)
Theorem executor_results_normalize (r : raw_result) :
  SnowflakeResponse.parse_dml_response (raw_dict r) =
    Return (DMLResponse.model_dump_json
              {| DMLResponse.success := success r; DMLResponse.message := message r;
                 DMLResponse.results := results r;
                 DMLResponse.rows_affected := rows_affected r |}) /\
  SnowflakeResponse.parse_ddl_response (raw_dict r) =
    Return (DDLResponse.model_dump_json
              {| DDLResponse.success := success r; DDLResponse.message := message r;
                 DDLResponse.results := results r |}).
Proof.
  split.
  - unfold SnowflakeResponse.parse_dml_response. now rewrite dml_response_of_raw.
  - unfold SnowflakeResponse.parse_ddl_response, DDLResponse.new, DMLResponse.field.
    rewrite raw_dict_success, raw_dict_message, raw_dict_results.
    now rewrite Hbool, Hstr, Hlist.
Qed.

(** X18.  End to end: with credentials in the environment that the
    warehouse accepts and validators that accept the values of their own
    type, the tool [execute_dml_statement] on a statement that is not blank
    (not emptied by [strip], the white space outside the ASCII range
    included) and that the driver accepts returns its summary, which quotes
    the statement and reports the row count of the driver and the number of
    rows it fetched. *)
Theorem execute_dml_statement_reports (dml_statement : string) (rows : list string)
    (n : Z) t :
  whitespace_only dml_statement = false ->
  run_sql dml_statement = inr (rows, n) ->
  fst (DMLTools.execute_dml_statement dml_statement t) =
  Return ("DML statement executed successfully!" ++ LF ++
          LF ++
          IND12 ++ "📝 Statement: " ++ dml_statement ++ LF ++
          IND12 ++ "✅ Operation completed successfully" ++ LF ++
          IND12 ++ "📊 Rows affected: " ++ str_int n ++ LF ++
          IND12 ++ "📈 Results: " ++ str_int (Z.of_nat (length rows)) ++
          " rows returned").
Proof.
  intros Hs Hrun. apply nonblank_check in Hs.
  unfold DMLTools.execute_dml_statement. tool_ready.
  unfold DMLManager.execute_dml, bind, emit, raise, ret. rewrite Hrun.
  cbv beta iota zeta. cbn [success negb].
  unfold SnowflakeResponse.parse_dml_response. rewrite !dml_response_of_raw.
  reflexivity.
Qed.

End Accepting.

End Ready.

End ToolSessions.

(** ** The interceptors *)

Section Pipeline.
Context `{Runtime} `{Clock}.
Implicit Types (t : trace) (context : MiddlewareContext).

(** One scan logs at most one event, a warning. *)
Lemma scan_bounded (tool sql : string) (keywords : list string) t :
  exists l,
    SnowflakeSecurityMiddleware.scan tool sql keywords t = (Return tt, (t ++ l)%list) /\
    forallb is_warning l = true /\ (length l <= 1)%nat.
Proof.
  induction keywords as [|k keywords IH]; simpl.
  - exists []. rewrite app_nil_r. repeat split. simpl. lia.
  - destruct (contains k sql); [|exact IH].
    eexists [_]. repeat split. simpl. lia.
Qed.

Lemma scan_fields_bounded (keywords : list string) (tool : string)
    (args : gmap string value) (fields : list string) t :
  exists l,
    SnowflakeSecurityMiddleware.scan_fields keywords tool args fields t =
    (Return tt, (t ++ l)%list) /\
    forallb is_warning l = true /\ (length l <= length fields)%nat.
Proof.
  revert t. induction fields as [|f fields IH]; intros t; simpl.
  - exists []. rewrite app_nil_r. repeat split. simpl. lia.
  - unfold bind.
    assert (Hstep : exists l1,
              match args !! f with
              | Some v =>
                  if truthy v
                  then SnowflakeSecurityMiddleware.scan tool (lower (py_str v)) keywords
                  else ret tt
              | None => ret tt
              end t = (Return tt, (t ++ l1)%list) /\
              forallb is_warning l1 = true /\ (length l1 <= 1)%nat).
    { destruct (args !! f) as [v|]; [destruct (truthy v)|];
        try apply scan_bounded;
        exists []; unfold ret; rewrite app_nil_r; repeat split; simpl; lia. }
    destruct Hstep as (l1 & -> & Hw1 & Hn1).
    destruct (IH (t ++ l1)%list) as (l2 & -> & Hw2 & Hn2).
    exists (l1 ++ l2)%list. rewrite app_assoc. split; [reflexivity|]. split.
    + now rewrite forallb_app, Hw1, Hw2.
    + rewrite length_app. lia.
Qed.

(** Every event of a scan is the warning about a keyword of the list that
    the text holds. *)
Lemma scan_names_keyword (tool sql : string) (keywords : list string) t :
  exists l,
    SnowflakeSecurityMiddleware.scan tool sql keywords t = (Return tt, (t ++ l)%list) /\
    Forall (fun ev => exists k,
              In k keywords /\ contains k sql = true /\
              ev = EvLog Warning
                     ("Potentially dangerous SQL operation detected in tool '" ++
                      tool ++ "': " ++ k)) l /\
    (existsb (fun k => contains k sql) keywords = true -> l <> []).
Proof.
  induction keywords as [|k keywords IH]; simpl.
  - exists []. rewrite app_nil_r. repeat split; [constructor | discriminate].
  - destruct (contains k sql) eqn:Hk.
    + eexists [_]. split; [reflexivity|]. split; [|discriminate].
      constructor; [|constructor]. exists k. auto.
    + destruct IH as (l & -> & Hall & Hne). exists l. split; [reflexivity|].
      split; [|exact Hne].
      eapply Forall_impl; [exact Hall|]. intros ev (k' & Hin & Hc & ->). eauto.
Qed.

(** X23.  On the four fields it scans the security interceptor reports every
    hit.  When the text of a scanned field holds, in any letter case, one of
    the dangerous phrases, the scan of that field logs one warning, whatever
    the order in which the set of phrases is iterated; the warning names the
    tool and a phrase of the set that the text does hold. *)
Theorem security_scan_reports (keywords : list string) (tool : string) (v : value)
    (phrase : string) t :
  Permutation SnowflakeSecurityMiddleware.DANGEROUS_KEYWORDS keywords ->
  In phrase SnowflakeSecurityMiddleware.DANGEROUS_KEYWORDS ->
  contains phrase (lower (py_str v)) = true ->
  exists found,
    In found SnowflakeSecurityMiddleware.DANGEROUS_KEYWORDS /\
    contains found (lower (py_str v)) = true /\
    SnowflakeSecurityMiddleware.scan tool (lower (py_str v)) keywords t =
    (Return tt,
     (t ++ [EvLog Warning
              ("Potentially dangerous SQL operation detected in tool '" ++
               tool ++ "': " ++ found)])%list).
Proof.
  intros Hperm Hin Hphrase.
  destruct (scan_names_keyword tool (lower (py_str v)) keywords t)
    as (l & Hscan & Hall & Hne).
  destruct (scan_bounded tool (lower (py_str v)) keywords t) as (l' & Hscan' & _ & Hlen).
  rewrite Hscan in Hscan'. injection Hscan' as Heq. apply app_inv_head in Heq. subst l'.
  assert (Hnonempty : l <> []).
  { apply Hne, existsb_exists. exists phrase. split; [|exact Hphrase].
    eapply Permutation_in; [exact Hperm | exact Hin]. }
  destruct l as [|ev [|ev' l]]; [congruence| |simpl in Hlen; lia].
  inversion Hall as [|? ? (found & Hfound & Hc & ->) _]; subst.
  exists found. split; [|split; [exact Hc | exact Hscan]].
  eapply Permutation_in; [symmetry; exact Hperm | exact Hfound].
Qed.

Lemma warnings_are_logs (l : trace) :
  forallb is_warning l = true -> forallb is_log l = true.
Proof.
  induction l as [|ev l IH]; simpl; [easy|].
  intros [Hev Hl]%andb_prop. rewrite (IH Hl), andb_true_r.
  destruct ev; try discriminate. reflexivity.
Qed.

(** What the security layer does, in the form used below. *)
Lemma security_scan_general {R} (keywords : list string) context
    (call_next : MiddlewareContext -> Py R) t :
  exists l,
    SnowflakeSecurityMiddleware.on_call_tool keywords context call_next t =
    call_next context (t ++ l)%list /\
    forallb is_warning l = true /\ (length l <= 4)%nat.
Proof.
  unfold SnowflakeSecurityMiddleware.on_call_tool, bind.
  destruct (arguments context) as [arguments|].
  - destruct (scan_fields_bounded keywords (default "unknown" (tool_name context))
                (default ∅ arguments) SnowflakeSecurityMiddleware.sql_fields t)
      as (l & -> & Hw & Hn).
    exists l. repeat split; assumption.
  - exists []. unfold ret. rewrite app_nil_r. repeat split. simpl. lia.
Qed.

(** What the logging layer does, in the form used below. *)
Lemma logging_run {R} context (call_next : MiddlewareContext -> Py R) t :
  SnowflakeLoggingMiddleware.on_call_tool context call_next t =
  let name := default "unknown" (tool_name context) in
  let inner :=
    call_next context
      (t ++ [EvLog Info ("[" ++ time_strftime t ++ "] Snowflake tool '" ++ name ++
                         "' started")])%list in
  let elapsed := format_2f (PrimFloat.sub (time_time (snd inner)) (time_time t)) in
  (fst inner,
   (snd inner ++
    [match fst inner with
     | Return _ =>
         EvLog Info ("[" ++ time_strftime (snd inner) ++ "] Snowflake tool '" ++ name ++
                     "' completed successfully in " ++ elapsed ++ "s")
     | Raise e =>
         EvLog Error ("[" ++ time_strftime (snd inner) ++ "] Snowflake tool '" ++ name ++
                      "' failed after " ++ elapsed ++ "s: " ++ exn_str e)
     end])%list).
Proof.
  unfold SnowflakeLoggingMiddleware.on_call_tool, SnowflakeLoggingMiddleware.log_at,
    try_except, bind, raise, ret. cbv zeta.
  now destruct (call_next context _) as [[x|e] t2].
Qed.

(** X14.  The security interceptor never blocks and never alters a call:
    whatever the arguments and the order of the keywords, it hands the same
    context to the next layer exactly once and gives back what that layer
    gives.  All it adds are warnings of the logger, at most one for each of
    the four fields it scans, and none at all when the context has no
    arguments. *)
Theorem security_never_blocks {R} (keywords : list string) context
    (call_next : MiddlewareContext -> Py R) t :
  exists l,
    SnowflakeSecurityMiddleware.on_call_tool keywords context call_next t =
    call_next context (t ++ l)%list /\
    forallb is_warning l = true /\
    (length l <= 4)%nat /\
    (match arguments context with
     | Some (Some _) => True
     | _ => l = []
     end).
Proof.
  unfold SnowflakeSecurityMiddleware.on_call_tool, bind.
  destruct (arguments context) as [[args|]|].
  - destruct (scan_fields_bounded keywords (default "unknown" (tool_name context))
                (default ∅ (Some args)) SnowflakeSecurityMiddleware.sql_fields t)
      as (l & -> & Hw & Hn).
    exists l. repeat split; assumption.
  - assert (Hnil : SnowflakeSecurityMiddleware.scan_fields keywords
                     (default "unknown" (tool_name context))
                     (default ∅ None) SnowflakeSecurityMiddleware.sql_fields t =
                   (Return tt, t)).
    { change (default ∅ None) with (∅ : gmap string value).
      unfold SnowflakeSecurityMiddleware.sql_fields,
        SnowflakeSecurityMiddleware.scan_fields, bind, ret.
      now rewrite !lookup_empty. }
    exists []. rewrite app_nil_r, Hnil. repeat split. simpl. lia.
  - exists []. unfold ret. rewrite app_nil_r. repeat split. simpl. lia.
Qed.

(** X15.  The logging interceptor observes and does not interfere.  It logs
    the start, hands the context to the next layer, and then logs once more:
    at level Info when that layer returned, and its result is returned
    unchanged; at level Error, with the text of the exception, when it
    raised, and the same exception is raised again.  The duration it reports
    is the difference of the clock between the two moments. *)
Theorem logging_observes_only {R} context (call_next : MiddlewareContext -> Py R) t :
  let name := default "unknown" (tool_name context) in
  let started :=
    (t ++ [EvLog Info ("[" ++ time_strftime t ++ "] Snowflake tool '" ++ name ++
                       "' started")])%list in
  let inner := call_next context started in
  let elapsed := format_2f (PrimFloat.sub (time_time (snd inner)) (time_time t)) in
  SnowflakeLoggingMiddleware.on_call_tool context call_next t =
  (fst inner,
   (snd inner ++
    [match fst inner with
     | Return _ =>
         EvLog Info ("[" ++ time_strftime (snd inner) ++ "] Snowflake tool '" ++ name ++
                     "' completed successfully in " ++ elapsed ++ "s")
     | Raise e =>
         EvLog Error ("[" ++ time_strftime (snd inner) ++ "] Snowflake tool '" ++ name ++
                      "' failed after " ++ elapsed ++ "s: " ++ exn_str e)
     end])%list).
Proof.
  intros name started inner elapsed. subst name started inner elapsed.
  unfold SnowflakeLoggingMiddleware.on_call_tool, SnowflakeLoggingMiddleware.log_at,
    try_except, bind, raise, ret.
  now destruct (call_next context _) as [[x|e] t2].
Qed.

(** X16.  The chain of the four registered interceptors is transparent: the
    tool is called exactly once, on the context the chain received, and the
    chain gives back the outcome of the tool, its result or its very
    exception.  Around the events of the tool the chain adds log events
    only: before it the debug line of the validation layer, the warnings of
    the security layer and the start line of the logging layer; after it the
    single closing line of the logging layer. *)
Theorem registered_chain_transparent {R} (keywords : list string) context
    (tool : MiddlewareContext -> Py R) t :
  exists before after,
    let inner := tool context (t ++ before)%list in
    registered_chain keywords context tool t = (fst inner, (snd inner ++ [after])%list) /\
    forallb is_log before = true /\
    is_log after = true /\
    (2 <= length before <= 6)%nat.
Proof.
  unfold registered_chain, SnowflakeValidationMiddleware.on_call_tool,
    SnowflakeConnectionMiddleware.on_call_tool.
  unfold bind at 1. unfold emit. cbv beta iota zeta.
  destruct (security_scan_general keywords context
              (fun context0 => SnowflakeLoggingMiddleware.on_call_tool context0
                                 (fun context1 => tool context1))
              (t ++ [EvLog Debug ("Validating tool: " ++
                                  default "unknown" (tool_name context))])%list)
    as (l & -> & Hw & Hn).
  rewrite logging_run.
  eexists (_ :: l ++ [_])%list, _. cbv zeta.
  rewrite <- !app_assoc. cbn [app]. split; [reflexivity|].
  split; [|split].
  - cbn [forallb is_log andb].
    rewrite forallb_app, (warnings_are_logs _ Hw). reflexivity.
  - now destruct (fst _).
  - cbn [length]. rewrite length_app. cbn [length]. lia.
Qed.

End Pipeline.

(** ** The DDL envelope *)

Section DDLShape.
Context `{Runtime}.

(** X19.  The DDL envelope asks for [results] and not for [rows_affected]:
    a raw result without [results] is refused with a validation error that
    names the field, and adding, changing or removing the entry
    [rows_affected] never changes what [parse_ddl_response] gives. *)
Theorem parse_ddl_response_fields (raw : gmap string pyobj) :
  (raw !! "results" = None ->
   exists fields,
     SnowflakeResponse.parse_ddl_response raw =
       Raise (ValidationError "DDLResponse" fields) /\
     In "results" fields) /\
  (forall o,
     SnowflakeResponse.parse_ddl_response (<["rows_affected" := o]> raw) =
     SnowflakeResponse.parse_ddl_response raw) /\
  SnowflakeResponse.parse_ddl_response (delete "rows_affected" raw) =
  SnowflakeResponse.parse_ddl_response raw.
Proof.
  split; [|split].
  - intros Hnone.
    unfold SnowflakeResponse.parse_ddl_response, DDLResponse.new.
    assert (Hf : DMLResponse.field validate_str_list "results" raw = None).
    { unfold DMLResponse.field. now rewrite Hnone. }
    rewrite Hf.
    destruct (DMLResponse.field validate_bool "success" raw),
             (DMLResponse.field validate_str "message" raw);
      cbn [obind]; eexists; (split; [reflexivity|]);
      cbn [DMLResponse.failed app]; auto with datatypes.
  - intros o.
    unfold SnowflakeResponse.parse_ddl_response, DDLResponse.new, DMLResponse.field.
    now rewrite !lookup_insert_ne by done.
  - unfold SnowflakeResponse.parse_ddl_response, DDLResponse.new, DMLResponse.field.
    now rewrite !lookup_delete_ne by done.
Qed.

End DDLShape.

(** ** Closed instances of the further properties *)

Lemma strict_str_list_accepts (l : list string) :
  strict_str_list (PyList (map VStr l)) = Some l.
Proof.
  unfold strict_str_list. induction l as [|x l IH]; [reflexivity|].
  cbn [map mapM]. rewrite IH. reflexivity.
Qed.

Lemma qualification_counts_dots_witness :
  count_char "." "tbl" <> 2%nat /\
  count_char "." "a..b" = 2%nat /\
  (exists msg op,
     @DMLManager.delete_data stub_runtime stub_manager "tbl" "id = 1" [] =
     (Raise (DMLException msg op "tbl"), [])) /\
  @DMLManager.select_data stub_runtime stub_manager "a..b" None None None None None [] =
  @DMLManager.execute_dml stub_runtime stub_manager "SELECT * FROM a..b" [].
Proof.
  assert (Hone : count_char "." "tbl" <> 2%nat) by (simpl; lia).
  split; [exact Hone|]. split; [reflexivity|]. split.
  - exact (proj1 (@qualification_counts_dots stub_runtime stub_manager
                    (Delete "tbl" "id = 1") []) Hone).
  - exact (proj2 (@qualification_counts_dots stub_runtime stub_manager
                    (Delete "a..b" "id = 1") []) eq_refl None None None None None).
Defined.

Lemma update_data_blank_where_witness :
  length (split "." "db.sch.tbl") = 3%nat /\
  length ["a"] = length [VInt 1] /\
  whitespace_only (NBSP ++ " ") = true /\
  executed (snd (@DMLManager.update_data stub_runtime stub_manager "db.sch.tbl"
                   ["a"] [VInt 1] (NBSP ++ " ") [])) =
  [(LF ++ IND8 ++ "UPDATE db.sch.tbl" ++ LF ++ IND8 ++ "SET a = 1" ++ LF ++
    IND8 ++ "WHERE " ++ NBSP ++ " " ++ LF ++ IND8)%string] /\
  @DMLManager.delete_data stub_runtime stub_manager "db.sch.tbl" (NBSP ++ " ") [] =
  (Raise (DMLException DMLManager.WHERE_REQUIRED "DELETE" "db.sch.tbl"), []).
Proof.
  split; [reflexivity|]. split; [reflexivity|]. split; [reflexivity|].
  exact (@update_data_blank_where stub_runtime stub_manager "db.sch.tbl"
           ["a"] [VInt 1] (NBSP ++ " ") [] eq_refl eq_refl eq_refl).
Defined.

Lemma merge_sql_clause_order_witness :
  @DMLManager.merge_sql stub_runtime "db.sch.tbl" "src" "c"
    [{| act_action := Some "DELETE"; act_columns := None; act_values := None |};
     {| act_action := Some "UPDATE"; act_columns := Some ["a"];
        act_values := Some [VInt 1] |}]
    (Some [{| act_action := Some "INSERT"; act_columns := Some ["a"];
              act_values := Some [VNone] |}]) =
  Return (DMLManager.merge_head "db.sch.tbl" "src" "c" ++
          String.concat "" [(LF ++ "WHEN MATCHED THEN DELETE")%string;
                            (LF ++ "WHEN MATCHED THEN UPDATE SET a = 1")%string] ++
          String.concat "" [(LF ++ "WHEN NOT MATCHED THEN INSERT (a) VALUES (NULL)")%string]).
Proof.
  apply (@merge_sql_clause_order stub_runtime); repeat constructor.
Defined.

Lemma new_manager_uses_environment_witness :
  @connector_installed stub_runtime = true /\
  snd (@DMLTools.new_manager stub_runtime []) = [EvConnect "acct" "user" "secret"].
Proof.
  split; [reflexivity|].
  exact (proj1 (@new_manager_uses_environment stub_runtime [] eq_refl)).
Defined.

Lemma invoke_without_credentials_witness :
  first_given [@getenv bare_runtime "SNOWFLAKE_ACCOUNT"] = None /\
  exists msg l,
    @invoke bare_runtime unit (fun _ => "[]") (fun s => s)
      (UpdateData unit "db.sch.tbl" "x = 1" "id = 1") [] =
    (Raise (ToolError msg), ([] ++ l)%list) /\
    connection_events l = [].
Proof.
  split; [reflexivity|].
  exact (@invoke_without_credentials bare_runtime unit (fun _ => "[]") (fun s => s)
           (UpdateData unit "db.sch.tbl" "x = 1" "id = 1") [] (or_introl eq_refl)).
Defined.

Lemma unqualified_table_after_connect_witness :
  length (split "." "tbl") <> 3%nat /\
  let run := @DMLTools.query_data stub_runtime (fun s => s) "tbl" None None
               (Some 100%Z) [] in
  fst run = Raise (ToolError ("Data query failed: " ++ DMLManager.NOT_QUALIFIED)) /\
  connection_events (snd run) = [EvConnect "acct" "user" "secret"].
Proof.
  assert (Hparts : length (split "." "tbl") <> 3%nat) by (simpl; lia).
  split; [exact Hparts|].
  exact (proj1 (@unqualified_table_after_connect stub_runtime unit (fun _ => "[]")
                  (fun s => s) "acct" "user" "secret" eq_refl eq_refl eq_refl eq_refl
                  eq_refl "tbl" [] Hparts) None None (Some 100%Z)).
Defined.

Lemma execute_dml_statement_verbatim_witness :
  whitespace_only "DELETE FROM t" = false /\
  executed (snd (@DMLTools.execute_dml_statement stub_runtime "DELETE FROM t" [])) =
  ["DELETE FROM t"] /\
  whitespace_only (NBSP ++ TAB) = true /\
  fst (@DMLTools.execute_dml_statement stub_runtime (NBSP ++ TAB) []) =
  Raise (ToolError
    "Validation error: Validation Error in 'dml_statement': DML statement cannot be empty").
Proof.
  split; [reflexivity|]. split; [|split; [reflexivity|]].
  - exact (proj2 (@execute_dml_statement_verbatim stub_runtime "acct" "user" "secret"
                    eq_refl eq_refl eq_refl eq_refl eq_refl "DELETE FROM t" []) eq_refl).
  - exact (f_equal fst
             (proj1 (@execute_dml_statement_verbatim stub_runtime "acct" "user" "secret"
                       eq_refl eq_refl eq_refl eq_refl eq_refl (NBSP ++ TAB) []) eq_refl)).
Defined.

Lemma insert_tool_statement_witness :
  length (split "." "db.sch.tbl") = 3%nat /\
  executed (snd (@DMLTools.insert_data stub_runtime unit (fun _ => "[1, 2]")
                   "db.sch.tbl" [("id", inl (VInt 1)); ("tags", inr tt)] [])) =
  [(LF ++ IND8 ++ "INSERT INTO db.sch.tbl (id, tags)" ++ LF ++
    IND8 ++ "VALUES (1, '[1, 2]')" ++ LF ++ IND8)%string].
Proof.
  split; [reflexivity|].
  refine (proj2 (@insert_tool_statement stub_runtime unit (fun _ => "[1, 2]")
                   "acct" "user" "secret" eq_refl eq_refl eq_refl eq_refl eq_refl
                   "db.sch.tbl" [("id", inl (VInt 1)); ("tags", inr tt)] [] eq_refl _)).
  discriminate.
Defined.

Lemma query_tool_statement_witness :
  length (split "." "db.sch.tbl") = 3%nat /\
  executed (snd (@DMLTools.query_data stub_runtime (fun s => s) "db.sch.tbl"
                   (Some ["id"]) (Some "id > 1") (Some 100%Z) [])) =
  ["SELECT id FROM db.sch.tbl WHERE id > 1 LIMIT 100"].
Proof.
  split; [reflexivity|].
  exact (@query_tool_statement stub_runtime (fun s => s) "acct" "user" "secret"
           eq_refl eq_refl eq_refl eq_refl eq_refl
           "db.sch.tbl" (Some ["id"]) (Some "id > 1") (Some 100%Z) [] eq_refl).
Defined.

Lemma executor_results_normalize_witness :
  @SnowflakeResponse.parse_ddl_response stub_runtime
    (raw_dict {| success := true; message := "ok"; results := ["a"]; rows_affected := 7 |}) =
  Return (@DDLResponse.model_dump_json stub_runtime
            {| DDLResponse.success := true; DDLResponse.message := "ok";
               DDLResponse.results := ["a"] |}).
Proof.
  exact (proj2 (@executor_results_normalize stub_runtime
                  (fun b => eq_refl) (fun s => eq_refl) (fun n => eq_refl)
                  strict_str_list_accepts
                  {| success := true; message := "ok"; results := ["a"];
                     rows_affected := 7 |})).
Defined.

Lemma execute_dml_statement_reports_witness :
  whitespace_only "DELETE FROM t" = false /\
  @run_sql stub_runtime "DELETE FROM t" = inr ([], 1%Z) /\
  fst (@DMLTools.execute_dml_statement stub_runtime "DELETE FROM t" []) =
  Return ("DML statement executed successfully!" ++ LF ++
          LF ++
          IND12 ++ "📝 Statement: DELETE FROM t" ++ LF ++
          IND12 ++ "✅ Operation completed successfully" ++ LF ++
          IND12 ++ "📊 Rows affected: 1" ++ LF ++
          IND12 ++ "📈 Results: 0 rows returned").
Proof.
  split; [reflexivity|]. split; [reflexivity|].
  exact (@execute_dml_statement_reports stub_runtime "acct" "user" "secret"
           eq_refl eq_refl eq_refl eq_refl eq_refl
           (fun b => eq_refl) (fun s => eq_refl) (fun n => eq_refl)
           strict_str_list_accepts "DELETE FROM t" [] 1%Z [] eq_refl eq_refl).
Defined.

Lemma parse_ddl_response_fields_witness :
  (∅ : gmap string pyobj) !! "results" = None /\
  exists fields,
    @SnowflakeResponse.parse_ddl_response stub_runtime ∅ =
      Raise (ValidationError "DDLResponse" fields) /\
    In "results" fields.
Proof.
  split; [reflexivity|].
  exact (proj1 (@parse_ddl_response_fields stub_runtime ∅) eq_refl).
Defined.

Lemma delete_tool_statement_witness :
  length (split "." "db.sch.tbl") = 3%nat /\
  whitespace_only "id = 1" = false /\
  executed (snd (@DMLTools.delete_data stub_runtime "db.sch.tbl" "id = 1" [])) =
  [(LF ++ IND8 ++ "DELETE FROM db.sch.tbl" ++ LF ++ IND8 ++ "WHERE id = 1" ++ LF ++
    IND8)%string].
Proof.
  split; [reflexivity|]. split; [reflexivity|].
  exact (@delete_tool_statement stub_runtime "acct" "user" "secret"
           eq_refl eq_refl eq_refl eq_refl eq_refl "db.sch.tbl" "id = 1" []
           eq_refl eq_refl).
Defined.

Lemma update_tool_statement_witness :
  executed (snd (@DMLTools.update_data stub_runtime "" "" "" [])) =
  ["UPDATE  SET  WHERE "].
Proof.
  exact (@update_tool_statement stub_runtime "acct" "user" "secret"
           eq_refl eq_refl eq_refl eq_refl eq_refl "" "" "" []).
Defined.

Lemma merge_tool_statement_witness :
  length (split "." "db.sch.tbl") = 3%nat /\
  executed (snd (@DMLTools.merge_data stub_runtime "db.sch.tbl" "src" "c"
                   [{| act_action := Some "DELETE"; act_columns := None;
                       act_values := None |}] None [])) =
  [(DMLManager.merge_head "db.sch.tbl" "src" "c" ++ LF ++
    "WHEN MATCHED THEN DELETE")%string].
Proof.
  split; [reflexivity|].
  exact (@merge_tool_statement stub_runtime "acct" "user" "secret"
           eq_refl eq_refl eq_refl eq_refl eq_refl "db.sch.tbl" "src" "c"
           {| act_action := Some "DELETE"; act_columns := None; act_values := None |}
           [] None _ [] eq_refl eq_refl eq_refl eq_refl).
Defined.

Lemma security_scan_reports_witness :
  contains "truncate" (lower (@py_str stub_runtime (VStr "TRUNCATE TABLE t"))) = true /\
  exists found,
    In found SnowflakeSecurityMiddleware.DANGEROUS_KEYWORDS /\
    contains found (lower (@py_str stub_runtime (VStr "TRUNCATE TABLE t"))) = true /\
    SnowflakeSecurityMiddleware.scan "execute_sql_query"
      (lower (@py_str stub_runtime (VStr "TRUNCATE TABLE t")))
      (rev SnowflakeSecurityMiddleware.DANGEROUS_KEYWORDS) [] =
    (Return tt,
     ([] ++ [EvLog Warning
               ("Potentially dangerous SQL operation detected in tool '" ++
                "execute_sql_query" ++ "': " ++ found)])%list).
Proof.
  split; [reflexivity|].
  apply (@security_scan_reports stub_runtime
           (rev SnowflakeSecurityMiddleware.DANGEROUS_KEYWORDS) "execute_sql_query"
           (VStr "TRUNCATE TABLE t") "truncate" []).
  - apply Permutation_rev.
  - simpl. auto.
  - reflexivity.
Defined.

(** ** White space outside the ASCII range *)

(** [strip] drops the no-break space and the ideographic space as it drops
    the space and the tabulation. *)
Example strip_unicode_white_space :
  strip (" " ++ NBSP ++ "a b" ++ IDEOGRAPHIC_SPACE ++ TAB) = "a b" /\
  strip NBSP = "" /\
  whitespace_only (NBSP ++ IDEOGRAPHIC_SPACE) = true /\
  whitespace_only (NBSP ++ "a") = false.
Proof. repeat split; reflexivity. Qed.

(** A WHERE text that is a no-break space is refused by the builder, and by
    the tool before it connects. *)
Example delete_no_break_space :
  @DMLManager.delete_data stub_runtime stub_manager "db.sch.tbl" NBSP [] =
  (Raise (DMLException DMLManager.WHERE_REQUIRED "DELETE" "db.sch.tbl"), []) /\
  executed (snd (@DMLTools.delete_data stub_runtime "db.sch.tbl" NBSP [])) = [] /\
  connection_events (snd (@DMLTools.delete_data stub_runtime "db.sch.tbl" NBSP [])) = [].
Proof. repeat split; vm_compute; reflexivity. Qed.

(** The guards of the merge tool take a no-break space for an empty text:
    the target is refused first, even with no matched action, then the
    source. *)
Example merge_no_break_space :
  fst (@DMLTools.merge_data stub_runtime NBSP "src" "c" [] None []) =
  Raise (ToolError
    "Validation error: Validation Error in 'target_table': Target table name cannot be empty") /\
  fst (@DMLTools.merge_data stub_runtime "db.sch.tbl" NBSP "c"
         [{| act_action := Some "DELETE"; act_columns := None; act_values := None |}]
         None []) =
  Raise (ToolError
    "Validation error: Validation Error in 'source_table': Source table name cannot be empty") /\
  executed (snd (@DMLTools.merge_data stub_runtime "db.sch.tbl" NBSP "c"
                   [{| act_action := Some "DELETE"; act_columns := None;
                       act_values := None |}]
                   None [])) = [].
Proof. repeat split; vm_compute; reflexivity. Qed.

(** A statement that is a no-break space is not sent, and a table name that
    is one is refused before the connection is opened. *)
Example statement_and_table_no_break_space :
  @DMLTools.execute_dml_statement stub_runtime NBSP [] =
  (Raise (ToolError
     "Validation error: Validation Error in 'dml_statement': DML statement cannot be empty"),
   [EvCtx Error
      "Validation error: Validation Error in 'dml_statement': DML statement cannot be empty"]) /\
  fst (@DMLTools.insert_data stub_runtime unit (fun _ => "[]") NBSP
         [("id", inl (VInt 1))] []) =
  Raise (ToolError
    "Validation error: Validation Error in 'table_name': Table name cannot be empty") /\
  connection_events
    (snd (@DMLTools.insert_data stub_runtime unit (fun _ => "[]") NBSP
            [("id", inl (VInt 1))] [])) = [].
Proof. repeat split; vm_compute; reflexivity. Qed.

(** The Kelvin sign is lowered to the letter k, so that a phrase spelled
    with it is found. *)
Example lower_kelvin_sign :
  contains "revoke"
    (lower ("REVO" ++ String "226" (String "132" (String "170" "")) ++ "E ALL")) = true.
Proof. reflexivity. Qed.
